(** * PlexKodiConnect: resources/lib/itemtypes/common.py

    A shallow embedding of [ItemBase], the scoped database session of the
    item types, and of its two playstate writers [update_userdata] and
    [update_playstate].

    The Python code talks to collaborators that live in other modules
    ([utils.kodi_sql], the sqlite connections, [PlexDB], [KodiVideoDB],
    [API], [utils.unix_date_to_kodi], the logger).  Every call to one of
    them is recorded as an [event] in a trace, and an environment [Env]
    decides, from the trace so far, whether the call raises and what it
    returns.  The methods of [ItemBase] run in a state-and-exception monad
    over the attributes of [self] and that trace. *)

From Stdlib Require Import ZArith Ascii String List Bool Lia PrimFloat.
From stdpp Require Import base option list strings gmap.

Local Open Scope string_scope.
Local Open Scope Z_scope.
Local Open Scope list_scope.

(** ** Python values *)

(** The values that travel through the playstate fields: [None], booleans,
    integers of unbounded size, floats (IEEE binary64) and text. *)
Inductive pyval : Type :=
| PyNone
| PyBool (b : bool)
| PyInt (z : Z)
| PyFloat (f : float)
| PyStr (s : string).

Inductive exn : Type :=
| TypeError
| AttributeError (attr : string)
| KeyError (key : string)
| OtherError (name : string).

Inductive res (A : Type) : Type :=
| Ok (a : A)
| Raise (e : exn).
Arguments Ok {A} a.
Arguments Raise {A} e.

Definition is_ok {A} (r : res A) : bool :=
  match r with Ok _ => true | Raise _ => false end.

(** Truth value of a Python value, as [if v:] takes it. *)
Definition py_truth (v : pyval) : bool :=
  match v with
  | PyNone => false
  | PyBool b => b
  | PyInt z => negb (z =? 0)
  | PyFloat f => negb (PrimFloat.eqb f 0%float)
  | PyStr s => negb (String.eqb s "")
  end.

(** [v += 1].  [bool] is a subclass of [int]; [None] and text do not
    support the addition of an integer and raise [TypeError]. *)
Definition py_iadd_one (v : pyval) : res pyval :=
  match v with
  | PyInt z => Ok (PyInt (z + 1))
  | PyBool b => Ok (PyInt (Z.b2z b + 1))
  | PyFloat f => Ok (PyFloat (f + 1)%float)
  | PyNone => Raise TypeError
  | PyStr _ => Raise TypeError
  end.

Definition is_TypeError (x : exn) : bool :=
  match x with TypeError => true | _ => false end.

(** ** Collaborator objects *)

(** A sqlite connection and a cursor on it, as handles. *)
Inductive conn : Type := Conn (id : nat).
Inductive cursor_h : Type := Cursor (id : nat).

(** [plex_db.PlexDB] and [kodi_db.KodiVideoDB] are declared outside this
    file; [__init__] reads the attributes below from them. *)
Module PlexDB.
Record t : Type := mk { oid : nat; cursor : option cursor_h }.
End PlexDB.

Module KodiVideoDB.
Record t : Type :=
  mk { oid : nat;
       cursor : option cursor_h;
       artconn : option conn;
       artcursor : option cursor_h }.
End KodiVideoDB.

(** An etree element: the code reads [attrib] and hands the element to
    [API]. *)
Record Element : Type := { tag : string; attrib : gmap string string }.

Inductive conn_method : Type :=
| m_cursor
| m_commit
| m_execute (sql : string)
| m_close.

Definition method_name (m : conn_method) : string :=
  match m with
  | m_cursor => "cursor"
  | m_commit => "commit"
  | m_execute _ => "execute"
  | m_close => "close"
  end.

(** ** Calls that leave the file *)
Inductive event : Type :=
| Call_kodi_sql (db : string)
| Call_conn (c : conn) (m : conn_method)
| Call_PlexDB (cur : option cursor_h)
| Call_KodiVideoDB (texture_db : bool) (cur artcur : option cursor_h)
| Call_API (xml : Element)
| Call_plex_id (api : Element)
| Call_userdata (api : Element)
| Call_item_by_id (db : PlexDB.t) (plex_id plex_type : pyval)
| Call_set_resume (db : KodiVideoDB.t)
    (fileid resume runtime playcount lastplayed plex_type : pyval)
| Call_update_userrating (db : KodiVideoDB.t) (kodi_id kodi_type rating : pyval)
| Call_modify_artwork (db : KodiVideoDB.t) (artworks : gmap string string)
    (kodi_id kodi_type : pyval)
| Call_unix_date_to_kodi (stamp : pyval)
| Log_error (fmt : string) (arg : gmap string string)
| Log_info (msg : string).

(** The three mutations of the local writer. *)
Definition is_writer_call (e : event) : bool :=
  match e with
  | Call_set_resume _ _ _ _ _ _ _ => true
  | Call_update_userrating _ _ _ _ => true
  | Call_modify_artwork _ _ _ _ => true
  | _ => false
  end.

Definition writer_calls (tr : list event) : nat :=
  length (List.filter is_writer_call tr).

(** The behaviour of the collaborators: given the calls made so far,
    whether a call raises, and what it returns when it does not. *)
Record Env : Type := {
  raises : list event -> event -> option exn;
  kodi_sql_ret : list event -> string -> conn;
  cursor_ret : list event -> conn -> cursor_h;
  PlexDB_ret : list event -> option cursor_h -> PlexDB.t;
  KodiVideoDB_ret :
    list event -> bool -> option cursor_h -> option cursor_h -> KodiVideoDB.t;
  plex_id_ret : list event -> Element -> pyval;
  userdata_ret : list event -> Element -> gmap string pyval;
  item_by_id_ret :
    list event -> PlexDB.t -> pyval -> pyval -> option (gmap string pyval);
  unix_date_to_kodi_ret : list event -> pyval -> pyval
}.

(** ** The session object *)

Record ItemBase : Type := {
  last_sync : pyval;
  plexconn : option conn;
  plexcursor : option cursor_h;
  kodiconn : option conn;
  kodicursor : option cursor_h;
  artconn : option conn;
  artcursor : option cursor_h;
  plexdb : option PlexDB.t;
  kodidb : option KodiVideoDB.t
}.

(** [ItemBase] defines neither [__nonzero__]/[__bool__] nor [__len__]: an
    instance is true. *)
Definition truth_ItemBase (_ : ItemBase) : bool := true.

Record state : Type := { self : ItemBase; trace : list event }.

Definition M (A : Type) : Type := state -> res A * state.

Definition ret {A} (a : A) : M A := fun s => (Ok a, s).

Definition bind {A B} (m : M A) (k : A -> M B) : M B :=
  fun s => match m s with
           | (Ok a, s') => k a s'
           | (Raise x, s') => (Raise x, s')
           end.

Definition raise {A} (x : exn) : M A := fun s => (Raise x, s).

Definition lift {A} (r : res A) : M A := fun s => (r, s).

Notation "'let*' x := m 'in' k" := (bind m (fun x => k))
  (at level 10, x name, m at level 100, k at level 200,
   format "'[v' 'let*'  x  :=  m  'in' '/' k ']'").

(** [try: body except <caught>: handler] *)
Definition try_except {A} (body : M A) (caught : exn -> bool) (handler : M A)
  : M A :=
  fun s => match body s with
           | (Raise x, s') => if caught x then handler s' else (Raise x, s')
           | r => r
           end.

Definition get_self : M ItemBase := fun s => (Ok (self s), s).

Definition modify_self (f : ItemBase -> ItemBase) : M unit :=
  fun s => (Ok tt, {| self := f (self s); trace := trace s |}).

(** [self.<name>] used as the receiver of a method call: [None] has no
    methods. *)
Definition receiver {A} (field : ItemBase -> option A) (method : string)
  : M A :=
  fun s => match field (self s) with
           | Some a => (Ok a, s)
           | None => (Raise (AttributeError method), s)
           end.

(** [d[key]] on what [item_by_id] returned and on the user data. *)
Definition getitem (d : option (gmap string pyval)) (key : string) : M pyval :=
  match d with
  | None => raise TypeError
  | Some m => match m !! key with
              | Some v => ret v
              | None => raise (KeyError key)
              end
  end.

(** Truth value of [None] or a dict. *)
Definition truth_dict (d : option (gmap string pyval)) : bool :=
  match d with
  | None => false
  | Some m => negb (Nat.eqb (size m) 0)
  end.

(** Assignments [self.<field> = v]. *)
Definition set_last_sync v (o : ItemBase) : ItemBase :=
  {| last_sync := v; plexconn := plexconn o; plexcursor := plexcursor o;
     kodiconn := kodiconn o; kodicursor := kodicursor o;
     artconn := artconn o; artcursor := artcursor o;
     plexdb := plexdb o; kodidb := kodidb o |}.
Definition set_plexconn v (o : ItemBase) : ItemBase :=
  {| last_sync := last_sync o; plexconn := v; plexcursor := plexcursor o;
     kodiconn := kodiconn o; kodicursor := kodicursor o;
     artconn := artconn o; artcursor := artcursor o;
     plexdb := plexdb o; kodidb := kodidb o |}.
Definition set_plexcursor v (o : ItemBase) : ItemBase :=
  {| last_sync := last_sync o; plexconn := plexconn o; plexcursor := v;
     kodiconn := kodiconn o; kodicursor := kodicursor o;
     artconn := artconn o; artcursor := artcursor o;
     plexdb := plexdb o; kodidb := kodidb o |}.
Definition set_kodiconn v (o : ItemBase) : ItemBase :=
  {| last_sync := last_sync o; plexconn := plexconn o;
     plexcursor := plexcursor o;
     kodiconn := v; kodicursor := kodicursor o;
     artconn := artconn o; artcursor := artcursor o;
     plexdb := plexdb o; kodidb := kodidb o |}.
Definition set_kodicursor v (o : ItemBase) : ItemBase :=
  {| last_sync := last_sync o; plexconn := plexconn o;
     plexcursor := plexcursor o;
     kodiconn := kodiconn o; kodicursor := v;
     artconn := artconn o; artcursor := artcursor o;
     plexdb := plexdb o; kodidb := kodidb o |}.
Definition set_artconn v (o : ItemBase) : ItemBase :=
  {| last_sync := last_sync o; plexconn := plexconn o;
     plexcursor := plexcursor o;
     kodiconn := kodiconn o; kodicursor := kodicursor o;
     artconn := v; artcursor := artcursor o;
     plexdb := plexdb o; kodidb := kodidb o |}.
Definition set_artcursor v (o : ItemBase) : ItemBase :=
  {| last_sync := last_sync o; plexconn := plexconn o;
     plexcursor := plexcursor o;
     kodiconn := kodiconn o; kodicursor := kodicursor o;
     artconn := artconn o; artcursor := v;
     plexdb := plexdb o; kodidb := kodidb o |}.
Definition set_plexdb v (o : ItemBase) : ItemBase :=
  {| last_sync := last_sync o; plexconn := plexconn o;
     plexcursor := plexcursor o;
     kodiconn := kodiconn o; kodicursor := kodicursor o;
     artconn := artconn o; artcursor := artcursor o;
     plexdb := v; kodidb := kodidb o |}.
Definition set_kodidb v (o : ItemBase) : ItemBase :=
  {| last_sync := last_sync o; plexconn := plexconn o;
     plexcursor := plexcursor o;
     kodiconn := kodiconn o; kodicursor := kodicursor o;
     artconn := artconn o; artcursor := artcursor o;
     plexdb := plexdb o; kodidb := v |}.

Definition wal_checkpoint : string := "PRAGMA wal_checkpoint(TRUNCATE);".

Section Session.

Variable env : Env.

(** A call to a collaborator: it is recorded, then it raises or returns as
    the environment says. *)
Definition extcall {A} (e : event) (result : list event -> A) : M A :=
  fun s =>
    let s' := {| self := self s; trace := trace s ++ [e] |} in
    match raises env (trace s) e with
    | Some x => (Raise x, s')
    | None => (Ok (result (trace s)), s')
    end.

(** The logger records and returns. *)
Definition log (e : event) : M unit :=
  fun s => (Ok tt, {| self := self s; trace := trace s ++ [e] |}).

(** [self.<field>.<method>()] on one of the three connections. *)
Definition conn_call (field : ItemBase -> option conn) (m : conn_method)
  : M unit :=
  let* c := receiver field (method_name m) in
  extcall (Call_conn c m) (fun _ => tt).

(** [plexdb] and [kodidb] default to [None]; an instance of [PlexDB] or
    [KodiVideoDB] counts as true in [x.cursor if x else None]. *)
Definition __init__ (last_sync' : pyval) (plexdb' : option PlexDB.t)
    (kodidb' : option KodiVideoDB.t) : M unit :=
  let* _ := modify_self (set_last_sync last_sync') in
  let* _ := modify_self (set_plexconn None) in
  let* _ := modify_self
              (set_plexcursor
                 match plexdb' with Some p => PlexDB.cursor p | None => None end) in
  let* _ := modify_self (set_kodiconn None) in
  let* _ := modify_self
              (set_kodicursor
                 match kodidb' with Some k => KodiVideoDB.cursor k | None => None end) in
  let* _ := modify_self
              (set_artconn
                 match kodidb' with Some k => KodiVideoDB.artconn k | None => None end) in
  let* _ := modify_self
              (set_artcursor
                 match kodidb' with Some k => KodiVideoDB.artcursor k | None => None end) in
  let* _ := modify_self (set_plexdb plexdb') in
  modify_self (set_kodidb kodidb').

Definition __enter__ : M ItemBase :=
  let* c := extcall (Call_kodi_sql "plex") (fun h => kodi_sql_ret env h "plex") in
  let* _ := modify_self (set_plexconn (Some c)) in
  let* c := receiver plexconn "cursor" in
  let* cur := extcall (Call_conn c m_cursor) (fun h => cursor_ret env h c) in
  let* _ := modify_self (set_plexcursor (Some cur)) in
  let* c := extcall (Call_kodi_sql "video") (fun h => kodi_sql_ret env h "video") in
  let* _ := modify_self (set_kodiconn (Some c)) in
  let* c := receiver kodiconn "cursor" in
  let* cur := extcall (Call_conn c m_cursor) (fun h => cursor_ret env h c) in
  let* _ := modify_self (set_kodicursor (Some cur)) in
  let* c := extcall (Call_kodi_sql "texture")
              (fun h => kodi_sql_ret env h "texture") in
  let* _ := modify_self (set_artconn (Some c)) in
  let* c := receiver artconn "cursor" in
  let* cur := extcall (Call_conn c m_cursor) (fun h => cursor_ret env h c) in
  let* _ := modify_self (set_artcursor (Some cur)) in
  let* o := get_self in
  let* p := extcall (Call_PlexDB (plexcursor o))
              (fun h => PlexDB_ret env h (plexcursor o)) in
  let* _ := modify_self (set_plexdb (Some p)) in
  let* o := get_self in
  let* k := extcall (Call_KodiVideoDB true (kodicursor o) (artcursor o))
              (fun h => KodiVideoDB_ret env h true (kodicursor o) (artcursor o)) in
  let* _ := modify_self (set_kodidb (Some k)) in
  get_self.

Definition commit : M unit :=
  let* _ := conn_call plexconn m_commit in
  let* _ := conn_call artconn m_commit in
  let* _ := conn_call kodiconn m_commit in
  let* _ := conn_call plexconn (m_execute wal_checkpoint) in
  let* _ := conn_call artconn (m_execute wal_checkpoint) in
  conn_call kodiconn (m_execute wal_checkpoint).

(** The three arguments describe the exception that left the body, if any;
    the method does not look at them. *)
Definition __exit__ (exc : option exn) : M ItemBase :=
  let* _ := commit in
  let* _ := conn_call plexconn m_close in
  let* _ := conn_call kodiconn m_close in
  let* _ := conn_call artconn m_close in
  get_self.

Definition set_fanart (artworks : gmap string string)
    (kodi_id kodi_type : pyval) : M unit :=
  let* k := receiver kodidb "modify_artwork" in
  extcall (Call_modify_artwork k artworks kodi_id kodi_type) (fun _ => tt).

Definition update_userdata (xml_element : Element) (plex_type : pyval)
  : M unit :=
  let* api := extcall (Call_API xml_element) (fun _ => xml_element) in
  let* p := receiver plexdb "item_by_id" in
  let* pid := extcall (Call_plex_id api) (fun h => plex_id_ret env h api) in
  let* db_item := extcall (Call_item_by_id p pid plex_type)
                    (fun h => item_by_id_ret env h p pid plex_type) in
  if negb (truth_dict db_item) then
    log (Log_error "Item not yet synced: %s" (attrib xml_element))
  else
    let* userdata := extcall (Call_userdata api)
                       (fun h => Some (userdata_ret env h api)) in
    let* k := receiver kodidb "set_resume" in
    let* fileid := getitem db_item "kodi_fileid" in
    let* resume := getitem userdata "Resume" in
    let* runtime := getitem userdata "Runtime" in
    let* playcount := getitem userdata "PlayCount" in
    let* lastplayed := getitem userdata "LastPlayedDate" in
    let* _ := extcall (Call_set_resume k fileid resume runtime playcount
                         lastplayed plex_type) (fun _ => tt) in
    let* k := receiver kodidb "update_userrating" in
    let* kodi_id := getitem db_item "kodi_id" in
    let* kodi_type := getitem db_item "kodi_type" in
    let* rating := getitem userdata "UserRating" in
    extcall (Call_update_userrating k kodi_id kodi_type rating) (fun _ => tt).

Definition update_playstate
    (mark_played view_count resume duration kodi_fileid lastViewedAt
       plex_type : pyval) : M unit :=
  let* vr :=
    (if py_truth mark_played then
       let* _ := log (Log_info "Marking item as completely watched in Kodi") in
       let* view_count := try_except (lift (py_iadd_one view_count))
                            is_TypeError (ret (PyInt 1)) in
       ret (view_count, PyInt 0)
     else ret (view_count, resume)) in
  let* k := receiver kodidb "set_resume" in
  let* stamp := extcall (Call_unix_date_to_kodi lastViewedAt)
                  (fun h => unix_date_to_kodi_ret env h lastViewedAt) in
  extcall (Call_set_resume k kodi_fileid (snd vr) duration (fst vr) stamp
             plex_type) (fun _ => tt).

(** [with ItemBase(...) as ctx: body].  The manager was constructed before;
    [__enter__] runs, then the body, then [__exit__] with the exception of
    the body if there was one.  A true result of [__exit__] suppresses that
    exception; an exception of [__exit__] itself replaces it. *)
Definition with_ItemBase (body : M unit) : M unit :=
  fun s =>
    match __enter__ s with
    | (Raise x, s1) => (Raise x, s1)
    | (Ok _, s1) =>
      match body s1 with
      | (Ok _, s2) =>
        match __exit__ None s2 with
        | (Ok _, s3) => (Ok tt, s3)
        | (Raise y, s3) => (Raise y, s3)
        end
      | (Raise x, s2) =>
        match __exit__ (Some x) s2 with
        | (Ok r, s3) => if truth_ItemBase r then (Ok tt, s3) else (Raise x, s3)
        | (Raise y, s3) => (Raise y, s3)
        end
      end
    end.

End Session.

(** ** Derived notions used in the statements *)

(** *** Session exit *)

(** The calls [__exit__] makes on three open connections, in program
    order: [commit] (three commits, three checkpoints), then the closes. *)
Definition exit_calls (p k a : conn) : list event :=
  [ Call_conn p m_commit; Call_conn a m_commit; Call_conn k m_commit;
    Call_conn p (m_execute wal_checkpoint);
    Call_conn a (m_execute wal_checkpoint);
    Call_conn k (m_execute wal_checkpoint);
    Call_conn p m_close; Call_conn k m_close; Call_conn a m_close ].

(** A session whose three connections are open. *)
Definition connected (o : ItemBase) (p k a : conn) : Prop :=
  plexconn o = Some p /\ kodiconn o = Some k /\ artconn o = Some a.

(** Calls made one after the other, none of whose results is used. *)
Fixpoint call_seq (env : Env) (l : list event) : M unit :=
  match l with
  | [] => ret tt
  | e :: l' => let* _ := extcall env e (fun _ => tt) in call_seq env l'
  end.

Definition with_trace (s : state) (tr : list event) : state :=
  {| self := self s; trace := tr |}.

(** *** Concrete environments and sessions *)

(** An environment in which the calls listed by [bad] raise and every other
    call returns; the identity lookup answers [found] and the remote user
    data is [ud]. *)
Definition test_env (bad : event -> option exn)
    (found : option (gmap string pyval)) (ud : gmap string pyval) : Env :=
  {| raises := fun _ e => bad e;
     kodi_sql_ret := fun h _ => Conn (length h);
     cursor_ret := fun h _ => Cursor (length h);
     PlexDB_ret := fun h cur => PlexDB.mk (length h) cur;
     KodiVideoDB_ret := fun h _ cur art => KodiVideoDB.mk (length h) cur None art;
     plex_id_ret := fun _ _ => PyStr "123";
     userdata_ret := fun _ _ => ud;
     item_by_id_ret := fun _ _ _ _ => found;
     unix_date_to_kodi_ret :=
       fun _ stamp => match stamp with
                      | PyInt 1500000000 => PyStr "2017-07-14 02:40:00"
                      | _ => PyStr "1970-01-01 00:00:00"
                      end |}.

Definition quiet_env : Env := test_env (fun _ => None) None ∅.

Definition OperationalError : exn := OtherError "sqlite3.OperationalError".

(** The checkpoint on the artwork connection [Conn 3] fails. *)
Definition art_checkpoint_fails : Env :=
  test_env (fun e => match e with
                     | Call_conn (Conn 3) (m_execute _) => Some OperationalError
                     | _ => None
                     end) None ∅.

(** The commit on the identity-store connection [Conn 1] fails. *)
Definition plex_commit_fails : Env :=
  test_env (fun e => match e with
                     | Call_conn (Conn 1) m_commit => Some OperationalError
                     | _ => None
                     end) None ∅.

Definition a_plexdb : PlexDB.t := PlexDB.mk 7 (Some (Cursor 4)).
Definition a_kodidb : KodiVideoDB.t :=
  KodiVideoDB.mk 8 (Some (Cursor 5)) None (Some (Cursor 6)).

(** A session after [__enter__]: three open connections and the two
    components. *)
Definition open_session : state :=
  {| self := {| last_sync := PyInt 0;
                plexconn := Some (Conn 1); plexcursor := Some (Cursor 4);
                kodiconn := Some (Conn 2); kodicursor := Some (Cursor 5);
                artconn := Some (Conn 3); artcursor := Some (Cursor 6);
                plexdb := Some a_plexdb; kodidb := Some a_kodidb |};
     trace := [] |}.

(** An object on which [__init__] has not run yet. *)
Definition blank_session : state :=
  {| self := {| last_sync := PyNone;
                plexconn := None; plexcursor := None;
                kodiconn := None; kodicursor := None;
                artconn := None; artcursor := None;
                plexdb := None; kodidb := None |};
     trace := [] |}.

Definition info_watched : event :=
  Log_info "Marking item as completely watched in Kodi".

(** What a run of [update_playstate] that reaches [set_resume] looks like:
    the events [pre] of the marking branch, the conversion of the
    timestamp, then [set_resume] with [resume'] and [count'] and the
    converted timestamp; the outcome is the one of [set_resume].  When the
    conversion raises, nothing is written. *)
Definition playstate_run (env : Env) (s : state) (k : KodiVideoDB.t)
    (pre : list event)
    (kodi_fileid resume' duration count' lastViewedAt plex_type : pyval)
    (r : res unit * state) : Prop :=
  let h := trace s ++ pre in
  let conv := Call_unix_date_to_kodi lastViewedAt in
  let write := Call_set_resume k kodi_fileid resume' duration count'
                 (unix_date_to_kodi_ret env h lastViewedAt) plex_type in
  match raises env h conv with
  | Some x => r = (Raise x, with_trace s (h ++ [conv]))
  | None =>
    r = (match raises env (h ++ [conv]) write with
         | Some x => Raise x
         | None => Ok tt
         end,
         with_trace s (h ++ [conv; write]))
  end.

Ltac step_playstate :=
  unfold update_playstate, playstate_run, with_trace, info_watched, bind, log,
    try_except, lift, ret, receiver, extcall;
  cbn [self trace fst snd].

Ltac split_on_raises :=
  repeat match goal with
         | |- context [raises ?env ?h ?e] =>
           destruct (raises env h e); cbn [self trace fst snd app]
         end.

Definition not_synced (xml : Element) : event :=
  Log_error "Item not yet synced: %s" (attrib xml).

Ltac step_userdata :=
  unfold update_userdata, not_synced, with_trace, getitem, bind, log, ret,
    raise, receiver, extcall;
  cbn [self trace fst snd].

(** The local record of the example of the specification, and the user
    data of its remote item as [API.userdata] hands them over. *)
Definition a_record : gmap string pyval :=
  <["kodi_fileid" := PyInt 55]>
    (<["kodi_id" := PyInt 77]> (<["kodi_type" := PyStr "movie"]> ∅)).

Definition a_userdata : gmap string pyval :=
  <["Resume" := PyInt 300]>
    (<["Runtime" := PyInt 7200]>
       (<["PlayCount" := PyInt 2]>
          (<["LastPlayedDate" := PyStr "2017-07-14 02:40:00"]>
             (<["UserRating" := PyFloat 8.5]> ∅)))).

Definition a_video : Element :=
  {| tag := "Video"; attrib := {[ "ratingKey" := "123" ]} |}.

Definition synced_env : Env := test_env (fun _ => None) (Some a_record) a_userdata.

(** The writer's [set_resume] fails, say on a locked database. *)
Definition set_resume_fails : Env :=
  test_env (fun e => match e with
                     | Call_set_resume _ _ _ _ _ _ _ => Some OperationalError
                     | _ => None
                     end) (Some a_record) a_userdata.

(** The session that [__enter__] leaves behind when all its calls return:
    three connections obtained from [utils.kodi_sql], a cursor on each, and
    the two components built on those cursors. *)
Definition entered (env : Env) (s : state) : state :=
  let h0 := trace s in
  let c1 := kodi_sql_ret env h0 "plex" in
  let h1 := h0 ++ [Call_kodi_sql "plex"] in
  let cur1 := cursor_ret env h1 c1 in
  let h2 := h1 ++ [Call_conn c1 m_cursor] in
  let c2 := kodi_sql_ret env h2 "video" in
  let h3 := h2 ++ [Call_kodi_sql "video"] in
  let cur2 := cursor_ret env h3 c2 in
  let h4 := h3 ++ [Call_conn c2 m_cursor] in
  let c3 := kodi_sql_ret env h4 "texture" in
  let h5 := h4 ++ [Call_kodi_sql "texture"] in
  let cur3 := cursor_ret env h5 c3 in
  let h6 := h5 ++ [Call_conn c3 m_cursor] in
  let p := PlexDB_ret env h6 (Some cur1) in
  let h7 := h6 ++ [Call_PlexDB (Some cur1)] in
  let k := KodiVideoDB_ret env h7 true (Some cur2) (Some cur3) in
  {| self := {| last_sync := last_sync (self s);
                plexconn := Some c1; plexcursor := Some cur1;
                kodiconn := Some c2; kodicursor := Some cur2;
                artconn := Some c3; artcursor := Some cur3;
                plexdb := Some p; kodidb := Some k |};
     trace := h7 ++ [Call_KodiVideoDB true (Some cur2) (Some cur3)] |}.

Ltac step_enter :=
  unfold __enter__, entered, bind, ret, receiver, extcall, get_self,
    modify_self;
  cbn [self trace fst snd plexconn kodiconn artconn plexcursor kodicursor
       artcursor set_plexconn set_plexcursor set_kodiconn set_kodicursor
       set_artconn set_artcursor set_plexdb set_kodidb].

(** A session constructed around an identity store and a writer owned by
    an outer scope. *)
Definition externally_bound : state :=
  snd (__init__ (PyInt 0) (Some a_plexdb) (Some a_kodidb) blank_session).

(** [with ItemBase(last_sync) as ctx: body] *)
Definition session_scope (env : Env) (last_sync' : pyval) (body : M unit)
  : M unit :=
  let* _ := __init__ last_sync' None None in
  with_ItemBase env body.

(** The event of the example of the specification, applied inside a
    session scope. *)
Definition apply_event (env : Env) : M unit :=
  update_playstate env (PyBool true) PyNone (PyInt 120000) (PyInt 5400000)
    (PyInt 9) (PyInt 1500000000) (PyStr "movie").

(** *** Paths *)

(** The backslash, character 92. *)
Definition backslash : ascii := ascii_of_nat 92.

Definition win_sep : string := String backslash EmptyString.
Definition net_sep : string := "/".

(** [c in s] for a single character [c]. *)
Fixpoint occurs (c : ascii) (s : string) : bool :=
  match s with
  | EmptyString => false
  | String c' s' => Ascii.eqb c c' || occurs c s'
  end.

Fixpoint last_char (s : string) : option ascii :=
  match s with
  | EmptyString => None
  | String c EmptyString => Some c
  | String _ s' => last_char s'
  end.

(** [s[:-1]] *)
Fixpoint drop_last (s : string) : string :=
  match s with
  | EmptyString => EmptyString
  | String _ EmptyString => EmptyString
  | String c s' => String c (drop_last s')
  end.

Section Paths.

(** [ntpath.dirname], of the Python library. *)
Variable dirname : string -> string.

Definition process_path (playurl : string) : string * string :=
  if occurs backslash playurl then
    let path := String.append playurl win_sep in
    let toplevelpath := String.append (dirname (dirname path)) win_sep in
    (path, toplevelpath)
  else
    let path := String.append playurl net_sep in
    let toplevelpath := String.append (dirname (dirname path)) net_sep in
    (path, toplevelpath).

End Paths.

(** *** Kinds of calls *)

Definition is_commit_or_checkpoint (e : event) : bool :=
  match e with
  | Call_conn _ m_commit => true
  | Call_conn _ (m_execute sql) => String.eqb sql wal_checkpoint
  | _ => false
  end.

(** Calls that resolve or read the remote item: [API], [plex_id],
    [userdata] and the identity lookup. *)
Definition is_identity_call (e : event) : bool :=
  match e with
  | Call_API _ => true
  | Call_plex_id _ => true
  | Call_userdata _ => true
  | Call_item_by_id _ _ _ => true
  | _ => false
  end.

Definition is_log_error (e : event) : bool :=
  match e with
  | Log_error _ _ => true
  | _ => false
  end.

Definition count_calls (f : event -> bool) (tr : list event) : nat :=
  length (List.filter f tr).

(** The events a computation adds to the trace of [s]. *)
Definition added {A} (s : state) (r : res A * state) : list event :=
  drop (length (trace s)) (trace (snd r)).

(** The first key, in the order given, that its dict does not hold. *)
Fixpoint first_missing (fields : list (gmap string pyval * string))
  : option string :=
  match fields with
  | [] => None
  | (m, key) :: rest =>
    match m !! key with
    | None => Some key
    | Some _ => first_missing rest
    end
  end.

(** *** More environments and sessions *)

(** Opening the primary database fails. *)
Definition video_open_fails : Env :=
  test_env (fun e => match e with
                     | Call_kodi_sql "video" => Some OperationalError
                     | _ => None
                     end) None ∅.

(** A session with an identity store and no writer, and one with a writer
    and no identity store. *)
Definition no_writer_session : state :=
  {| self := set_kodidb None (self open_session); trace := [] |}.

Definition no_store_session : state :=
  {| self := set_plexdb None (self open_session); trace := [] |}.

(** Records of the identity store that lack a field. *)
Definition record_without_fileid : gmap string pyval :=
  <["kodi_id" := PyInt 77]> (<["kodi_type" := PyStr "movie"]> ∅).

Definition record_without_kodi_id : gmap string pyval :=
  <["kodi_fileid" := PyInt 55]> (<["kodi_type" := PyStr "movie"]> ∅).

Definition a_fanart : gmap string string :=
  {[ "fanart" := "http://pms/library/metadata/123/art" ]}.

(** *** Proof steps for the methods *)

Ltac split_on_conn s :=
  repeat (cbn [self trace fst snd];
          match goal with
          | |- context [raises ?env ?h ?e] => destruct (raises env h e)
          | |- context [plexconn (self s)] => destruct (plexconn (self s))
          | |- context [artconn (self s)] => destruct (artconn (self s))
          | |- context [kodiconn (self s)] => destruct (kodiconn (self s))
          end);
  cbn [self trace fst snd].

Ltac rewrite_known :=
  repeat (match goal with
          | H : _ = _ |- _ => rewrite H
          end; cbn [negb self trace fst snd]).

(** * Properties *)

(** ** Session exit *)

Section ExitFacts.

Variable env : Env.

Lemma call_seq_all_return (l : list event) : forall s,
  (forall i e, l !! i = Some e -> raises env (trace s ++ take i l) e = None) ->
  call_seq env l s = (Ok tt, with_trace s (trace s ++ l)).
Proof.
  induction l as [|e l IH]; intros s Hall.
  - destruct s; cbn. unfold ret, with_trace; cbn. by rewrite app_nil_r.
  - cbn [call_seq]. unfold bind, extcall.
    pose proof (Hall 0%nat e eq_refl) as H0. cbn in H0.
    rewrite app_nil_r in H0. rewrite H0.
    rewrite IH.
    + unfold with_trace; cbn. by rewrite <- app_assoc.
    + intros i e' Hi. cbn. rewrite <- app_assoc. apply (Hall (S i) e' Hi).
Qed.

Lemma call_seq_first_raise (l : list event) : forall s i e x,
  l !! i = Some e ->
  raises env (trace s ++ take i l) e = Some x ->
  (forall j e', (j < i)%nat -> l !! j = Some e' ->
                raises env (trace s ++ take j l) e' = None) ->
  call_seq env l s = (Raise x, with_trace s (trace s ++ take (S i) l)).
Proof.
  induction l as [|e0 l IH]; intros s i e x Hi Hx Hbefore; [done|].
  cbn [call_seq]. unfold bind, extcall.
  destruct i as [|i].
  - cbn in Hi. injection Hi as ->. cbn in Hx. rewrite app_nil_r in Hx.
    rewrite Hx. unfold with_trace. cbn. by rewrite take_0.
  - pose proof (Hbefore 0%nat e0 ltac:(lia) eq_refl) as H0. cbn in H0.
    rewrite app_nil_r in H0. rewrite H0.
    rewrite (IH _ i e x).
    + unfold with_trace; cbn. by rewrite <- app_assoc.
    + exact Hi.
    + cbn. rewrite <- app_assoc. exact Hx.
    + intros j e' Hj Hl. cbn. rewrite <- app_assoc.
      apply (Hbefore (S j) e'); [lia | exact Hl].
Qed.

(** Whatever the environment does, the calls made are an initial segment
    of the list. *)
Lemma call_seq_prefix (l : list event) : forall s,
  exists n, (n <= length l)%nat /\
            trace (snd (call_seq env l s)) = trace s ++ take n l /\
            self (snd (call_seq env l s)) = self s /\
            (is_ok (fst (call_seq env l s)) = true -> n = length l).
Proof.
  induction l as [|e l IH]; intros s.
  - exists 0%nat. cbn. rewrite app_nil_r. auto.
  - cbn [call_seq]. unfold bind, extcall.
    destruct (raises env (trace s) e) as [x|].
    + exists 1%nat. cbn. rewrite take_0. repeat split; [lia | done].
    + destruct (IH {| self := self s; trace := trace s ++ [e] |})
        as (n & Hn & Htr & Hself & Hok).
      exists (S n). cbn in *. rewrite Htr, <- app_assoc.
      repeat split; [lia | exact Hself | intros H; f_equal; auto].
Qed.

(** On three open connections [__exit__] is the nine calls in a row,
    followed by [return self]. *)
Lemma exit_unfold (exc : option exn) (s : state) (p k a : conn) :
  connected (self s) p k a ->
  __exit__ env exc s =
  (let* _ := call_seq env (exit_calls p k a) in get_self) s.
Proof.
  intros (Hp & Hk & Ha).
  unfold __exit__, commit, conn_call, exit_calls, call_seq, bind, receiver,
    extcall, get_self, ret.
  repeat (cbn [self trace]; rewrite ?Hp, ?Ha, ?Hk; cbn [self trace];
          match goal with
          | |- context [raises env ?h ?e] => destruct (raises env h e)
          end; try reflexivity).
Qed.

End ExitFacts.

Lemma open_session_connected :
  connected (self open_session) (Conn 1) (Conn 2) (Conn 3).
Proof. repeat split. Qed.

(** C8 (as amended): on every exit of a session with three open
    connections, whatever exception information [__exit__] receives and
    whatever the storage calls do, the calls made are ordered: every commit
    made comes before every checkpoint made and every checkpoint made
    before every close made.  When none of the nine calls raises, the exit
    returns and has made exactly the three commits, then the three
    checkpoints, then the three closes; a returning exit has always made
    all nine. *)
Theorem exit_commit_checkpoint_close_order
    (env : Env) (exc : option exn) (s : state) (p k a : conn) :
  connected (self s) p k a ->
  exists tr,
    trace (snd (__exit__ env exc s)) = trace s ++ tr /\
    (forall i j c c',
        tr !! i = Some (Call_conn c m_commit) ->
        tr !! j = Some (Call_conn c' (m_execute wal_checkpoint)) ->
        (i < j)%nat) /\
    (forall i j c c',
        tr !! i = Some (Call_conn c (m_execute wal_checkpoint)) ->
        tr !! j = Some (Call_conn c' m_close) ->
        (i < j)%nat) /\
    (is_ok (fst (__exit__ env exc s)) = true -> tr = exit_calls p k a) /\
    ((forall i e, exit_calls p k a !! i = Some e ->
                  raises env (trace s ++ take i (exit_calls p k a)) e = None) ->
     fst (__exit__ env exc s) = Ok (self s) /\ tr = exit_calls p k a).
Proof.
  intros Hc. rewrite (exit_unfold env exc s p k a Hc).
  unfold bind.
  destruct (call_seq_prefix env (exit_calls p k a) s)
    as (n & Hn & Htr & Hself & Hok).
  exists (take n (exit_calls p k a)).
  assert (Hcalls : forall i e, take n (exit_calls p k a) !! i = Some e ->
                               exit_calls p k a !! i = Some e).
  { intros i e Hi. apply lookup_take_Some in Hi. tauto. }
  split; [|split; [|split; [|split]]].
  - destruct (call_seq env (exit_calls p k a) s) as [[[]|x] s']; exact Htr.
  - intros i j c c' Hi Hj. apply Hcalls in Hi, Hj.
    do 9 (destruct i as [|i]; [do 9 (destruct j as [|j]; [cbn in Hi, Hj; first [discriminate | lia]|]); cbn in Hj; discriminate|]).
    cbn in Hi; discriminate.
  - intros i j c c' Hi Hj. apply Hcalls in Hi, Hj.
    do 9 (destruct i as [|i]; [do 9 (destruct j as [|j]; [cbn in Hi, Hj; first [discriminate | lia]|]); cbn in Hj; discriminate|]).
    cbn in Hi; discriminate.
  - destruct (call_seq env (exit_calls p k a) s) as [[[]|x] s']; cbn in *.
    + intros _. rewrite (Hok eq_refl). reflexivity.
    + discriminate.
  - intros Hall.
    rewrite (call_seq_all_return env (exit_calls p k a) s Hall) in *.
    cbn in *. split; [reflexivity|].
    rewrite (Hok eq_refl). reflexivity.
Qed.

Lemma exit_commit_checkpoint_close_order_witness :
  connected (self open_session) (Conn 1) (Conn 2) (Conn 3) /\
  exists tr,
    trace (snd (__exit__ quiet_env None open_session)) = trace open_session ++ tr /\
    tr = exit_calls (Conn 1) (Conn 2) (Conn 3).
Proof.
  split; [exact open_session_connected|].
  destruct (exit_commit_checkpoint_close_order quiet_env None open_session
              (Conn 1) (Conn 2) (Conn 3) open_session_connected)
    as (tr & Htr & _ & _ & Hok & _).
  exists tr. split; [exact Htr|]. apply Hok. reflexivity.
Defined.

(** C8 as stated fails: when the checkpoint on the artwork connection
    raises, the exit has committed the three connections and checkpointed
    the first, and stops there: the primary connection is not checkpointed
    and no connection is closed, so it is not the case that every
    connection is committed, checkpointed and closed on this exit. *)
Lemma exit_failed_checkpoint_closes_nothing :
  connected (self open_session) (Conn 1) (Conn 2) (Conn 3) /\
  __exit__ art_checkpoint_fails None open_session =
  (Raise OperationalError,
   with_trace open_session
     [Call_conn (Conn 1) m_commit; Call_conn (Conn 3) m_commit;
      Call_conn (Conn 2) m_commit;
      Call_conn (Conn 1) (m_execute wal_checkpoint);
      Call_conn (Conn 3) (m_execute wal_checkpoint)]) /\
  ~ (forall c, In c [Conn 1; Conn 2; Conn 3] ->
               In (Call_conn c m_commit)
                  (trace (snd (__exit__ art_checkpoint_fails None open_session))) /\
               In (Call_conn c (m_execute wal_checkpoint))
                  (trace (snd (__exit__ art_checkpoint_fails None open_session))) /\
               In (Call_conn c m_close)
                  (trace (snd (__exit__ art_checkpoint_fails None open_session)))).
Proof.
  split; [exact open_session_connected|]. split; [reflexivity|].
  intros Hall.
  destruct (Hall (Conn 1) (or_introl eq_refl)) as (_ & _ & Hclose).
  cbn in Hclose.
  repeat (destruct Hclose as [Hclose|Hclose]; [discriminate Hclose|]).
  exact Hclose.
Qed.

(** C1 (as amended): on a session with three open connections [__exit__]
    makes its nine calls in program order and stops at the first one that
    raises.  When none raises all nine are made and the session is
    returned.  When the call at position [i] is the first to raise, the
    calls up to and including it have been made, none of the later ones
    has, and the exception that leaves [__exit__] is that first one. *)
Theorem exit_stops_at_first_raise
    (env : Env) (exc : option exn) (s : state) (p k a : conn) :
  connected (self s) p k a ->
  ((forall i e, exit_calls p k a !! i = Some e ->
                raises env (trace s ++ take i (exit_calls p k a)) e = None) ->
   __exit__ env exc s =
   (Ok (self s), with_trace s (trace s ++ exit_calls p k a)))
  /\
  (forall i e x,
      exit_calls p k a !! i = Some e ->
      raises env (trace s ++ take i (exit_calls p k a)) e = Some x ->
      (forall j e', (j < i)%nat -> exit_calls p k a !! j = Some e' ->
                    raises env (trace s ++ take j (exit_calls p k a)) e' = None) ->
      __exit__ env exc s =
      (Raise x, with_trace s (trace s ++ take (S i) (exit_calls p k a)))).
Proof.
  intros Hc. rewrite (exit_unfold env exc s p k a Hc). unfold bind. split.
  - intros Hall. by rewrite (call_seq_all_return env _ s Hall).
  - intros i e x Hi Hx Hbefore.
    by rewrite (call_seq_first_raise env _ s i e x Hi Hx Hbefore).
Qed.

Lemma exit_stops_at_first_raise_witness :
  connected (self open_session) (Conn 1) (Conn 2) (Conn 3) /\
  __exit__ plex_commit_fails None open_session =
  (Raise OperationalError, with_trace open_session [Call_conn (Conn 1) m_commit]).
Proof.
  split; [exact open_session_connected|].
  apply (proj2 (exit_stops_at_first_raise plex_commit_fails None open_session
                  (Conn 1) (Conn 2) (Conn 3) open_session_connected)
           0%nat (Call_conn (Conn 1) m_commit) OperationalError).
  - reflexivity.
  - reflexivity.
  - intros j e' Hj. lia.
Defined.

(** C1 as stated fails: when the first commit raises, [__exit__] makes that
    one call and nothing else; the other two connections are neither
    committed nor checkpointed and no connection is closed. *)
Lemma exit_failed_commit_skips_cleanup :
  connected (self open_session) (Conn 1) (Conn 2) (Conn 3) /\
  trace (snd (__exit__ plex_commit_fails None open_session)) =
  [Call_conn (Conn 1) m_commit] /\
  ~ (forall e, In e (exit_calls (Conn 1) (Conn 2) (Conn 3)) ->
               In e (trace (snd (__exit__ plex_commit_fails None open_session)))).
Proof.
  split; [exact open_session_connected|]. split; [reflexivity|].
  intros Hall.
  specialize (Hall (Call_conn (Conn 2) m_close)).
  cbn in Hall.
  destruct Hall as [H|[]]; [|discriminate H].
  do 7 right. left. reflexivity.
Qed.

(** ** The event path: [update_playstate] *)

(** C2: when [mark_played] is true, [set_resume] receives 0 as resume
    whatever resume value came with the event, and as view count the prior
    count plus one when the prior count is an integer, and 1 when it is
    [None]. *)
Theorem update_playstate_marked_played
    (env : Env) (s : state) (k : KodiVideoDB.t)
    (mark_played view_count resume duration kodi_fileid lastViewedAt
       plex_type : pyval) :
  py_truth mark_played = true ->
  kodidb (self s) = Some k ->
  let r := update_playstate env mark_played view_count resume duration
             kodi_fileid lastViewedAt plex_type s in
  (forall n, view_count = PyInt n ->
             playstate_run env s k [info_watched] kodi_fileid (PyInt 0)
               duration (PyInt (n + 1)) lastViewedAt plex_type r) /\
  (view_count = PyNone ->
   playstate_run env s k [info_watched] kodi_fileid (PyInt 0)
     duration (PyInt 1) lastViewedAt plex_type r).
Proof.
  intros Hm Hk r. subst r. split.
  - intros n ->. step_playstate. rewrite Hm. cbn. rewrite Hk. cbn.
    split_on_raises; rewrite <- ?app_assoc; reflexivity.
  - intros ->. step_playstate. rewrite Hm. cbn. rewrite Hk. cbn.
    split_on_raises; rewrite <- ?app_assoc; reflexivity.
Qed.

Lemma update_playstate_marked_played_witness :
  py_truth (PyBool true) = true /\
  kodidb (self open_session) = Some a_kodidb /\
  update_playstate quiet_env (PyBool true) (PyInt 2) (PyInt 120000)
    (PyInt 5400000) (PyInt 9) (PyInt 1500000000) (PyStr "movie") open_session =
  (Ok tt,
   with_trace open_session
     [info_watched; Call_unix_date_to_kodi (PyInt 1500000000);
      Call_set_resume a_kodidb (PyInt 9) (PyInt 0) (PyInt 5400000) (PyInt 3)
        (PyStr "2017-07-14 02:40:00") (PyStr "movie")]).
Proof.
  split; [reflexivity|]. split; [reflexivity|].
  exact (proj1 (update_playstate_marked_played quiet_env open_session a_kodidb
                  (PyBool true) (PyInt 2) (PyInt 120000) (PyInt 5400000)
                  (PyInt 9) (PyInt 1500000000) (PyStr "movie")
                  eq_refl eq_refl) 2 eq_refl).
Defined.

(** The example of the specification: no prior count, a resume point of two
    minutes; the writer gets resume 0 and count 1. *)
Example update_playstate_first_view :
  update_playstate quiet_env (PyBool true) PyNone (PyInt 120000)
    (PyInt 5400000) (PyInt 9) (PyInt 1500000000) (PyStr "movie") open_session =
  (Ok tt,
   with_trace open_session
     [info_watched; Call_unix_date_to_kodi (PyInt 1500000000);
      Call_set_resume a_kodidb (PyInt 9) (PyInt 0) (PyInt 5400000) (PyInt 1)
        (PyStr "2017-07-14 02:40:00") (PyStr "movie")]).
Proof. reflexivity. Qed.

(** C6: when [mark_played] is true and incrementing the prior view count
    raises [TypeError] (the count is text, say), the [TypeError] is handled
    inside [update_playstate]: [set_resume] receives the view count 1 (and
    resume 0), and the outcome of the method is the outcome of that
    [set_resume] call; in particular it returns when the conversion of the
    timestamp and [set_resume] return. *)
Theorem update_playstate_invalid_count
    (env : Env) (s : state) (k : KodiVideoDB.t)
    (mark_played view_count resume duration kodi_fileid lastViewedAt
       plex_type : pyval) :
  py_truth mark_played = true ->
  py_iadd_one view_count = Raise TypeError ->
  kodidb (self s) = Some k ->
  let r := update_playstate env mark_played view_count resume duration
             kodi_fileid lastViewedAt plex_type s in
  playstate_run env s k [info_watched] kodi_fileid (PyInt 0) duration
    (PyInt 1) lastViewedAt plex_type r /\
  ((forall h e, raises env h e = None) -> fst r = Ok tt).
Proof.
  intros Hm Hadd Hk r. subst r. split.
  - step_playstate. rewrite Hm, Hadd. cbn. rewrite Hk. cbn.
    split_on_raises; rewrite <- ?app_assoc; reflexivity.
  - intros Hquiet. step_playstate. rewrite Hm, Hadd. cbn. rewrite Hk. cbn.
    rewrite !Hquiet. reflexivity.
Qed.

Lemma update_playstate_invalid_count_witness :
  py_truth (PyBool true) = true /\
  py_iadd_one (PyStr "3") = Raise TypeError /\
  kodidb (self open_session) = Some a_kodidb /\
  update_playstate quiet_env (PyBool true) (PyStr "3") (PyInt 120000)
    (PyInt 5400000) (PyInt 9) (PyInt 1500000000) (PyStr "movie") open_session =
  (Ok tt,
   with_trace open_session
     [info_watched; Call_unix_date_to_kodi (PyInt 1500000000);
      Call_set_resume a_kodidb (PyInt 9) (PyInt 0) (PyInt 5400000) (PyInt 1)
        (PyStr "2017-07-14 02:40:00") (PyStr "movie")]).
Proof.
  split; [reflexivity|]. split; [reflexivity|]. split; [reflexivity|].
  exact (proj1 (update_playstate_invalid_count quiet_env open_session a_kodidb
                  (PyBool true) (PyStr "3") (PyInt 120000) (PyInt 5400000)
                  (PyInt 9) (PyInt 1500000000) (PyStr "movie")
                  eq_refl eq_refl eq_refl)).
Defined.

(** C7: when [mark_played] is false, the timestamp is converted first, and
    [set_resume] then receives the resume, duration and view count of the
    event as they came, together with the converted timestamp. *)
Theorem update_playstate_not_marked
    (env : Env) (s : state) (k : KodiVideoDB.t)
    (mark_played view_count resume duration kodi_fileid lastViewedAt
       plex_type : pyval) :
  py_truth mark_played = false ->
  kodidb (self s) = Some k ->
  playstate_run env s k [] kodi_fileid resume duration view_count
    lastViewedAt plex_type
    (update_playstate env mark_played view_count resume duration
       kodi_fileid lastViewedAt plex_type s).
Proof.
  intros Hm Hk. step_playstate. rewrite Hm. cbn. rewrite Hk. cbn.
  rewrite !app_nil_r.
  split_on_raises; rewrite <- ?app_assoc; reflexivity.
Qed.

Lemma update_playstate_not_marked_witness :
  py_truth (PyBool false) = false /\
  kodidb (self open_session) = Some a_kodidb /\
  update_playstate quiet_env (PyBool false) (PyInt 4) (PyInt 120000)
    (PyInt 5400000) (PyInt 9) (PyInt 1500000000) (PyStr "movie") open_session =
  (Ok tt,
   with_trace open_session
     [Call_unix_date_to_kodi (PyInt 1500000000);
      Call_set_resume a_kodidb (PyInt 9) (PyInt 120000) (PyInt 5400000)
        (PyInt 4) (PyStr "2017-07-14 02:40:00") (PyStr "movie")]).
Proof.
  split; [reflexivity|]. split; [reflexivity|].
  exact (update_playstate_not_marked quiet_env open_session a_kodidb
           (PyBool false) (PyInt 4) (PyInt 120000) (PyInt 5400000)
           (PyInt 9) (PyInt 1500000000) (PyStr "movie") eq_refl eq_refl).
Defined.

(** ** The full-record path: [update_userdata] *)

(** C3: when the identity lookup returns nothing ([None], or an empty
    record), [update_userdata] logs the attributes of the remote item at
    error level, makes no call to the local writer, and returns. *)
Theorem update_userdata_not_found
    (env : Env) (s : state) (p : PlexDB.t) (xml : Element) (plex_type : pyval) :
  let h1 := trace s ++ [Call_API xml] in
  let h2 := h1 ++ [Call_plex_id xml] in
  let lookup := Call_item_by_id p (plex_id_ret env h1 xml) plex_type in
  plexdb (self s) = Some p ->
  raises env (trace s) (Call_API xml) = None ->
  raises env h1 (Call_plex_id xml) = None ->
  raises env h2 lookup = None ->
  truth_dict (item_by_id_ret env h2 p (plex_id_ret env h1 xml) plex_type)
  = false ->
  update_userdata env xml plex_type s =
  (Ok tt,
   with_trace s
     (trace s ++ [Call_API xml; Call_plex_id xml; lookup; not_synced xml]))
  /\ writer_calls [Call_API xml; Call_plex_id xml; lookup; not_synced xml]
     = 0%nat.
Proof.
  intros h1 h2 lookup Hp Hapi Hid Hlookup Hnone. subst h1 h2 lookup.
  split; [|reflexivity].
  step_userdata.
  repeat (first [rewrite Hapi | rewrite Hp | rewrite Hid | rewrite Hlookup
                 | rewrite Hnone];
          cbn [negb self trace]).
  rewrite <- !app_assoc. reflexivity.
Qed.

Lemma update_userdata_not_found_witness :
  plexdb (self open_session) = Some a_plexdb /\
  truth_dict (item_by_id_ret quiet_env [] a_plexdb (PyStr "123") (PyStr "movie"))
  = false /\
  update_userdata quiet_env {| tag := "Video"; attrib := {[ "ratingKey" := "123" ]} |}
    (PyStr "movie") open_session =
  (Ok tt,
   with_trace open_session
     (let xml := {| tag := "Video"; attrib := {[ "ratingKey" := "123" ]} |} in
      [Call_API xml; Call_plex_id xml;
       Call_item_by_id a_plexdb (PyStr "123") (PyStr "movie");
       not_synced xml])).
Proof.
  split; [reflexivity|]. split; [reflexivity|].
  exact (proj1 (update_userdata_not_found quiet_env open_session a_plexdb
                  {| tag := "Video"; attrib := {[ "ratingKey" := "123" ]} |}
                  (PyStr "movie") eq_refl eq_refl eq_refl eq_refl eq_refl)).
Defined.

Example update_userdata_synced :
  update_userdata synced_env a_video (PyStr "movie") open_session =
  (Ok tt,
   with_trace open_session
     [Call_API a_video; Call_plex_id a_video;
      Call_item_by_id a_plexdb (PyStr "123") (PyStr "movie");
      Call_userdata a_video;
      Call_set_resume a_kodidb (PyInt 55) (PyInt 300) (PyInt 7200) (PyInt 2)
        (PyStr "2017-07-14 02:40:00") (PyStr "movie");
      Call_update_userrating a_kodidb (PyInt 77) (PyStr "movie")
        (PyFloat 8.5)]).
Proof. vm_compute. reflexivity. Qed.

(** C4 as stated fails: the lookup succeeds, [set_resume] is called and
    raises, and [update_userrating] is never called; this invocation has
    made exactly one call to the local writer. *)
Lemma update_userdata_one_writer_call :
  truth_dict (item_by_id_ret set_resume_fails
                [Call_API a_video; Call_plex_id a_video]
                a_plexdb (PyStr "123") (PyStr "movie")) = true /\
  update_userdata set_resume_fails a_video (PyStr "movie") open_session =
  (Raise OperationalError,
   with_trace open_session
     [Call_API a_video; Call_plex_id a_video;
      Call_item_by_id a_plexdb (PyStr "123") (PyStr "movie");
      Call_userdata a_video;
      Call_set_resume a_kodidb (PyInt 55) (PyInt 300) (PyInt 7200) (PyInt 2)
        (PyStr "2017-07-14 02:40:00") (PyStr "movie")]) /\
  ~ (writer_calls
       (trace (snd (update_userdata set_resume_fails a_video (PyStr "movie")
                      open_session))) = 0%nat \/
     writer_calls
       (trace (snd (update_userdata set_resume_fails a_video (PyStr "movie")
                      open_session))) = 2%nat).
Proof.
  split; [vm_compute; reflexivity|]. split; [vm_compute; reflexivity|].
  assert (H : writer_calls
                (trace (snd (update_userdata set_resume_fails a_video
                               (PyStr "movie") open_session))) = 1%nat)
    by (vm_compute; reflexivity).
  rewrite H. intros [H0|H2]; discriminate.
Qed.

(** A lookup that finds a key is a lookup in a non-empty record. *)
Lemma truth_dict_lookup (m : gmap string pyval) (key : string) (v : pyval) :
  m !! key = Some v -> truth_dict (Some m) = true.
Proof.
  intros Hkey. unfold truth_dict.
  destruct (size m) as [|n] eqn:Hsize; [|reflexivity].
  apply map_size_empty_inv in Hsize. subst m.
  by rewrite lookup_empty in Hkey.
Qed.

(** Whatever the collaborators do, an invocation of [update_userdata] that
    returns has made no call to the local writer or two of them, and no
    invocation makes more than two. *)
Lemma update_userdata_writer_calls
    (env : Env) (s : state) (xml : Element) (plex_type : pyval) :
  exists tr,
    trace (snd (update_userdata env xml plex_type s)) = trace s ++ tr /\
    (writer_calls tr <= 2)%nat /\
    (is_ok (fst (update_userdata env xml plex_type s)) = true ->
     writer_calls tr = 0%nat \/ writer_calls tr = 2%nat).
Proof.
  step_userdata.
  repeat (cbn [self trace fst snd negb];
          match goal with
          | |- context [raises env ?h ?e] => destruct (raises env h e)
          | |- context [plexdb (self s)] => destruct (plexdb (self s))
          | |- context [kodidb (self s)] => destruct (kodidb (self s))
          | |- context [truth_dict ?d] => destruct (truth_dict d)
          | |- context [match item_by_id_ret env ?h ?p ?i ?t with _ => _ end] =>
            destruct (item_by_id_ret env h p i t)
          | |- context [@lookup string pyval _ _ ?key ?m] =>
            destruct (@lookup string pyval _ _ key m)
          end);
    cbn [self trace fst snd negb];
    rewrite <- ?app_assoc;
    (eexists; split; [cbn [app]; reflexivity|]);
    cbn; (split; [lia|]); intros Hok; first [discriminate Hok | auto].
Qed.

(** C4 (as amended): when the identity lookup finds a record holding
    [kodi_fileid], [kodi_id] and [kodi_type], and the user data hold their
    five fields, [update_userdata] calls [set_resume] with the file id of
    the record and the four playstate fields.  When that call raises, its
    exception leaves the method and exactly one writer call has been made.
    When it returns, [update_userrating] is called next, once, with the
    item id and type of the record and the rating, and the outcome of the
    method is the outcome of that call.  An invocation that returns has
    made no writer call or two, never one. *)
Theorem update_userdata_found
    (env : Env) (s : state) (p : PlexDB.t) (k : KodiVideoDB.t)
    (xml : Element) (plex_type : pyval) (d : gmap string pyval)
    (fileid kodi_id kodi_type resume runtime playcount lastplayed rating
       : pyval) :
  let h1 := trace s ++ [Call_API xml] in
  let h2 := h1 ++ [Call_plex_id xml] in
  let lookup := Call_item_by_id p (plex_id_ret env h1 xml) plex_type in
  let h3 := h2 ++ [lookup] in
  let h4 := h3 ++ [Call_userdata xml] in
  let u := userdata_ret env h3 xml in
  let write1 := Call_set_resume k fileid resume runtime playcount lastplayed
                  plex_type in
  let write2 := Call_update_userrating k kodi_id kodi_type rating in
  let r := update_userdata env xml plex_type s in
  plexdb (self s) = Some p ->
  kodidb (self s) = Some k ->
  raises env (trace s) (Call_API xml) = None ->
  raises env h1 (Call_plex_id xml) = None ->
  raises env h2 lookup = None ->
  item_by_id_ret env h2 p (plex_id_ret env h1 xml) plex_type = Some d ->
  d !! "kodi_fileid" = Some fileid ->
  d !! "kodi_id" = Some kodi_id ->
  d !! "kodi_type" = Some kodi_type ->
  raises env h3 (Call_userdata xml) = None ->
  u !! "Resume" = Some resume ->
  u !! "Runtime" = Some runtime ->
  u !! "PlayCount" = Some playcount ->
  u !! "LastPlayedDate" = Some lastplayed ->
  u !! "UserRating" = Some rating ->
  match raises env h4 write1 with
  | Some x =>
    r = (Raise x, with_trace s (h4 ++ [write1])) /\
    writer_calls (drop (length (trace s)) (trace (snd r))) = 1%nat
  | None =>
    r = (match raises env (h4 ++ [write1]) write2 with
         | Some x => Raise x
         | None => Ok tt
         end,
         with_trace s (h4 ++ [write1; write2])) /\
    writer_calls (drop (length (trace s)) (trace (snd r))) = 2%nat
  end
  /\
  (is_ok (fst r) = true ->
   writer_calls (drop (length (trace s)) (trace (snd r))) = 0%nat \/
   writer_calls (drop (length (trace s)) (trace (snd r))) = 2%nat).
Proof.
  intros h1 h2 lookup h3 h4 u write1 write2 r
    Hp Hk Hapi Hid Hlookup Hd Hf Hi Ht Hud Hres Hrun Hpc Hlp Hrat.
  split.
  - assert (Hrun_eq :
      r = match raises env h4 write1 with
          | Some x => (Raise x, with_trace s (h4 ++ [write1]))
          | None => (match raises env (h4 ++ [write1]) write2 with
                     | Some x => Raise x
                     | None => Ok tt
                     end, with_trace s (h4 ++ [write1; write2]))
          end).
    { subst r h1 h2 lookup h3 h4 u write1 write2. step_userdata.
      repeat (first [rewrite Hapi | rewrite Hp | rewrite Hk | rewrite Hid
                     | rewrite Hlookup | rewrite Hd
                     | rewrite (truth_dict_lookup d _ _ Hf)
                     | rewrite Hf | rewrite Hi | rewrite Ht | rewrite Hud
                     | rewrite Hres | rewrite Hrun | rewrite Hpc | rewrite Hlp
                     | rewrite Hrat
                     | match goal with
                       | |- context [raises env ?h ?e] =>
                         destruct (raises env h e)
                       end];
              cbn [negb self trace]);
        rewrite <- ?app_assoc; reflexivity. }
    rewrite Hrun_eq.
    subst h4 h3 h2 h1.
    destruct (raises env _ write1); (split; [reflexivity|]);
      cbn [snd trace with_trace]; rewrite <- !app_assoc;
      rewrite drop_app_length; reflexivity.
  - destruct (update_userdata_writer_calls env s xml plex_type)
      as (tr & Htr & _ & Hok).
    fold r in Htr, Hok. rewrite Htr, drop_app_length. exact Hok.
Qed.

Lemma update_userdata_found_witness :
  item_by_id_ret synced_env [Call_API a_video; Call_plex_id a_video]
    a_plexdb (PyStr "123") (PyStr "movie") = Some a_record /\
  update_userdata synced_env a_video (PyStr "movie") open_session =
  (Ok tt,
   with_trace open_session
     [Call_API a_video; Call_plex_id a_video;
      Call_item_by_id a_plexdb (PyStr "123") (PyStr "movie");
      Call_userdata a_video;
      Call_set_resume a_kodidb (PyInt 55) (PyInt 300) (PyInt 7200) (PyInt 2)
        (PyStr "2017-07-14 02:40:00") (PyStr "movie");
      Call_update_userrating a_kodidb (PyInt 77) (PyStr "movie")
        (PyFloat 8.5)]) /\
  writer_calls
    (drop (length (trace open_session))
       (trace (snd (update_userdata synced_env a_video (PyStr "movie")
                      open_session)))) = 2%nat.
Proof.
  split; [reflexivity|].
  exact (proj1 (update_userdata_found synced_env open_session a_plexdb a_kodidb
                  a_video (PyStr "movie") a_record
                  (PyInt 55) (PyInt 77) (PyStr "movie")
                  (PyInt 300) (PyInt 7200) (PyInt 2)
                  (PyStr "2017-07-14 02:40:00") (PyFloat 8.5)
                  eq_refl eq_refl eq_refl eq_refl eq_refl eq_refl eq_refl
                  eq_refl eq_refl eq_refl eq_refl eq_refl eq_refl eq_refl
                  eq_refl)).
Defined.

(** ** Construction and entry *)

(** C9: constructing a session with an identity store and a writer given
    from outside binds [plexdb] and [kodidb] to them and the cursors (and
    the artwork connection) to theirs, leaves [plexconn] and [kodiconn]
    unset, and makes no call at all: no storage connection is opened. *)
Theorem init_binds_supplied_instances
    (s : state) (last_sync' : pyval) (p : PlexDB.t) (k : KodiVideoDB.t) :
  __init__ last_sync' (Some p) (Some k) s =
  (Ok tt,
   {| self := {| last_sync := last_sync';
                 plexconn := None;
                 plexcursor := PlexDB.cursor p;
                 kodiconn := None;
                 kodicursor := KodiVideoDB.cursor k;
                 artconn := KodiVideoDB.artconn k;
                 artcursor := KodiVideoDB.artcursor k;
                 plexdb := Some p;
                 kodidb := Some k |};
      trace := trace s |}).
Proof. reflexivity. Qed.

(** A session so constructed writes through the supplied writer. *)
Lemma supplied_writer_is_used
    (env : Env) (s : state) (last_sync' : pyval) (p : PlexDB.t)
    (k : KodiVideoDB.t)
    (view_count resume duration kodi_fileid lastViewedAt plex_type : pyval) :
  let s' := snd (__init__ last_sync' (Some p) (Some k) s) in
  playstate_run env s' k [] kodi_fileid resume duration view_count
    lastViewedAt plex_type
    (update_playstate env (PyBool false) view_count resume duration
       kodi_fileid lastViewedAt plex_type s').
Proof.
  intros s'. subst s'. step_playstate. cbn. rewrite !app_nil_r.
  split_on_raises; rewrite <- ?app_assoc; reflexivity.
Qed.

(** C10: [__enter__] begins by opening a connection, whatever the session
    was bound to; when it returns, the session holds three connections
    obtained from [utils.kodi_sql], cursors on them, and a [PlexDB] and a
    [KodiVideoDB] built on those cursors.  Of the session before entry only
    [last_sync] remains: an identity store or writer supplied at
    construction is replaced. *)
Theorem enter_opens_and_rebinds (env : Env) (s : state) :
  (exists tr,
      trace (snd (__enter__ env s)) = trace s ++ Call_kodi_sql "plex" :: tr) /\
  (is_ok (fst (__enter__ env s)) = true ->
   __enter__ env s = (Ok (self (entered env s)), entered env s)).
Proof.
  split.
  - step_enter.
    repeat match goal with
           | |- context [raises env ?h ?e] =>
             destruct (raises env h e);
               cbn [self trace fst snd plexconn kodiconn artconn plexcursor
                    kodicursor artcursor set_plexconn set_plexcursor
                    set_kodiconn set_kodicursor set_artconn set_artcursor
                    set_plexdb set_kodidb]
           end;
      rewrite <- ?app_assoc; eexists; cbn [app]; reflexivity.
  - step_enter.
    repeat match goal with
           | |- context [raises env ?h ?e] =>
             destruct (raises env h e);
               cbn [self trace fst snd plexconn kodiconn artconn plexcursor
                    kodicursor artcursor set_plexconn set_plexcursor
                    set_kodiconn set_kodicursor set_artconn set_artcursor
                    set_plexdb set_kodidb]
           end;
      intros Hok; first [discriminate Hok | reflexivity].
Qed.

Lemma enter_opens_and_rebinds_witness :
  is_ok (fst (__enter__ quiet_env externally_bound)) = true /\
  plexdb (self externally_bound) = Some a_plexdb /\
  kodidb (self externally_bound) = Some a_kodidb /\
  __enter__ quiet_env externally_bound =
  (Ok (self (entered quiet_env externally_bound)),
   entered quiet_env externally_bound) /\
  plexdb (self (entered quiet_env externally_bound)) =
  Some (PlexDB.mk 6 (Some (Cursor 1))) /\
  kodidb (self (entered quiet_env externally_bound)) =
  Some (KodiVideoDB.mk 7 (Some (Cursor 3)) None (Some (Cursor 5))).
Proof.
  split; [reflexivity|]. split; [reflexivity|]. split; [reflexivity|].
  split; [|split; reflexivity].
  exact (proj2 (enter_opens_and_rebinds quiet_env externally_bound) eq_refl).
Defined.

(** ** The session scope *)

(** An exception of the body does not leave the [with] statement when
    [__exit__] returns: [__exit__] returns [self], which is true. *)
Lemma with_ItemBase_suppresses
    (env : Env) (body : M unit) (s s1 s2 s3 : state) (o o' : ItemBase)
    (x : exn) :
  __enter__ env s = (Ok o, s1) ->
  body s1 = (Raise x, s2) ->
  __exit__ env (Some x) s2 = (Ok o', s3) ->
  with_ItemBase env body s = (Ok tt, s3).
Proof.
  intros Henter Hbody Hexit. unfold with_ItemBase.
  by rewrite Henter, Hbody, Hexit.
Qed.

(** An exception of [__exit__] itself does leave it. *)
Lemma with_ItemBase_exit_raises
    (env : Env) (body : M unit) (s s1 s2 s3 : state) (o : ItemBase)
    (r : res unit) (y : exn) :
  __enter__ env s = (Ok o, s1) ->
  body s1 = (r, s2) ->
  __exit__ env (match r with Ok _ => None | Raise x => Some x end) s2
  = (Raise y, s3) ->
  with_ItemBase env body s = (Raise y, s3).
Proof.
  intros Henter Hbody Hexit. unfold with_ItemBase.
  rewrite Henter, Hbody. destruct r as [[]|x]; by rewrite Hexit.
Qed.

(** C5, at the failing input: [set_resume] raises inside
    [update_playstate], which lets the exception through; the session scope
    then commits, checkpoints and closes, and ends normally: the exception
    of the writer is suppressed and never reaches the caller of the
    session. *)
Theorem session_scope_swallows_writer_error :
  let s1 := entered set_resume_fails
              (snd (__init__ (PyInt 0) None None blank_session)) in
  let k := KodiVideoDB.mk 7 (Some (Cursor 3)) None (Some (Cursor 5)) in
  apply_event set_resume_fails s1 =
  (Raise OperationalError,
   with_trace s1
     (trace s1 ++
      [info_watched; Call_unix_date_to_kodi (PyInt 1500000000);
       Call_set_resume k (PyInt 9) (PyInt 0) (PyInt 5400000) (PyInt 1)
         (PyStr "2017-07-14 02:40:00") (PyStr "movie")])) /\
  session_scope set_resume_fails (PyInt 0) (apply_event set_resume_fails)
    blank_session =
  (Ok tt,
   with_trace s1
     (trace s1 ++
      [info_watched; Call_unix_date_to_kodi (PyInt 1500000000);
       Call_set_resume k (PyInt 9) (PyInt 0) (PyInt 5400000) (PyInt 1)
         (PyStr "2017-07-14 02:40:00") (PyStr "movie")] ++
      exit_calls (Conn 0) (Conn 2) (Conn 4))).
Proof. split; vm_compute; reflexivity. Qed.

(** ** Paths: [process_path] *)

Lemma occurs_append (c : ascii) (s t : string) :
  occurs c (String.append s t) = occurs c s || occurs c t.
Proof.
  induction s as [|c' s IH]; simpl; [reflexivity|].
  rewrite IH. apply orb_assoc.
Qed.

Lemma last_char_append_single (s : string) (c : ascii) :
  last_char (String.append s (String c EmptyString)) = Some c.
Proof.
  induction s as [|c' s IH]; simpl; [reflexivity|].
  destruct (String.append s (String c EmptyString)) eqn:E; [|exact IH].
  destruct s; discriminate E.
Qed.

Lemma drop_last_append_single (s : string) (c : ascii) :
  drop_last (String.append s (String c EmptyString)) = s.
Proof.
  induction s as [|c' s IH]; simpl; [reflexivity|].
  destruct (String.append s (String c EmptyString)) eqn:E.
  - destruct s; discriminate E.
  - by rewrite IH.
Qed.

Lemma length_append_single (s : string) (c : ascii) :
  String.length (String.append s (String c EmptyString)) = S (String.length s).
Proof. induction s as [|c' s IH]; simpl; [reflexivity|]. by rewrite IH. Qed.

(** X1: the path is the play URL followed by one separator, a backslash
    when the URL contains a backslash and a slash otherwise.  Adding the
    separator does not change the kind of the path: the path contains a
    backslash exactly when the URL does.  The top-level path ends with the
    same separator as the path, whatever [dirname] returns. *)
Theorem process_path_separator (dirname : string -> string) (playurl : string) :
  let sep := if occurs backslash playurl then backslash else "/"%char in
  fst (process_path dirname playurl)
  = String.append playurl (String sep EmptyString) /\
  occurs backslash (fst (process_path dirname playurl))
  = occurs backslash playurl /\
  last_char (fst (process_path dirname playurl)) = Some sep /\
  last_char (snd (process_path dirname playurl)) = Some sep.
Proof.
  unfold process_path, win_sep, net_sep.
  destruct (occurs backslash playurl) eqn:Hocc; cbn [fst snd];
    rewrite occurs_append, Hocc, !last_char_append_single; cbn; auto.
Qed.

(** X2: the play URL is recovered from the path by dropping its last
    character, and the path is one character longer than the URL; so two
    different URLs never give the same path. *)
Theorem process_path_round_trip (dirname : string -> string) (playurl : string) :
  drop_last (fst (process_path dirname playurl)) = playurl /\
  String.length (fst (process_path dirname playurl))
  = S (String.length playurl) /\
  (forall dirname' playurl',
      fst (process_path dirname' playurl') = fst (process_path dirname playurl) ->
      playurl' = playurl).
Proof.
  assert (Hdrop : forall d p, drop_last (fst (process_path d p)) = p).
  { intros d p. unfold process_path, win_sep, net_sep.
    destruct (occurs backslash p); cbn [fst]; apply drop_last_append_single. }
  split; [apply Hdrop|]. split.
  - unfold process_path, win_sep, net_sep.
    destruct (occurs backslash playurl); cbn [fst];
      apply length_append_single.
  - intros d' p' Heq. rewrite <- (Hdrop d' p'), Heq. apply Hdrop.
Qed.

Lemma process_path_round_trip_witness :
  fst (process_path (fun s => s) "smb://nas/films/Heat (1995)/Heat.mkv")
  = fst (process_path (fun _ => "") "smb://nas/films/Heat (1995)/Heat.mkv") /\
  "smb://nas/films/Heat (1995)/Heat.mkv" = "smb://nas/films/Heat (1995)/Heat.mkv".
Proof.
  split; [reflexivity|].
  exact (proj2 (proj2 (process_path_round_trip (fun _ => "")
                         "smb://nas/films/Heat (1995)/Heat.mkv"))
           (fun s => s) "smb://nas/films/Heat (1995)/Heat.mkv" eq_refl).
Defined.

(** ** Commit, exit and the attributes of the session *)

(** X3: [commit] never closes a connection.  In any session and whatever
    the storage calls do, the calls it makes are commits and checkpoints,
    at most six of them, and it rebinds no attribute of the session. *)
Theorem commit_never_closes (env : Env) (s : state) :
  exists tr,
    trace (snd (commit env s)) = trace s ++ tr /\
    (length tr <= 6)%nat /\
    Forall (fun e => is_commit_or_checkpoint e = true) tr /\
    self (snd (commit env s)) = self s.
Proof.
  unfold commit, conn_call, bind, receiver, extcall.
  split_on_conn s;
    rewrite <- ?app_assoc;
    (eexists; split;
     [cbn [app]; first [reflexivity | symmetry; apply app_nil_r]|]);
    cbn [length]; (split; [lia|]); (split; [|reflexivity]);
    repeat constructor.
Qed.

(** X4: [__exit__] rebinds nothing either: after it, returned or raised,
    the session has the attributes it had, so the handles of the closed
    connections stay in place; what it returns is the session. *)
Theorem exit_keeps_attributes (env : Env) (exc : option exn) (s : state) :
  self (snd (__exit__ env exc s)) = self s /\
  (forall o, fst (__exit__ env exc s) = Ok o -> o = self s).
Proof.
  unfold __exit__, commit, conn_call, bind, receiver, extcall, get_self.
  split_on_conn s; (split; [reflexivity|]); intros o Ho;
    first [discriminate Ho | by injection Ho].
Qed.

Lemma exit_keeps_attributes_witness :
  fst (__exit__ quiet_env None open_session) = Ok (self open_session) /\
  self open_session = self open_session.
Proof.
  split; [reflexivity|].
  exact (proj2 (exit_keeps_attributes quiet_env None open_session)
           (self open_session) eq_refl).
Defined.

(** X5: a session that was constructed and not entered has no connection,
    whichever instances it was given: [commit] and [__exit__] raise
    [AttributeError] at their first line, without any call. *)
Theorem commit_before_enter_raises
    (env : Env) (exc : option exn) (s : state) (last_sync' : pyval)
    (plexdb' : option PlexDB.t) (kodidb' : option KodiVideoDB.t) :
  let s' := snd (__init__ last_sync' plexdb' kodidb' s) in
  commit env s' = (Raise (AttributeError "commit"), s') /\
  __exit__ env exc s' = (Raise (AttributeError "commit"), s') /\
  trace s' = trace s.
Proof. repeat split. Qed.

(** ** Entry followed by other methods *)

(** When [__enter__] returns, it returns the session described by
    [entered]. *)
Lemma enter_returns (env : Env) (s : state) :
  is_ok (fst (__enter__ env s)) = true ->
  __enter__ env s = (Ok (self (entered env s)), entered env s).
Proof.
  step_enter.
  repeat match goal with
         | |- context [raises env ?h ?e] =>
           destruct (raises env h e);
             cbn [self trace fst snd plexconn kodiconn artconn plexcursor
                  kodicursor artcursor set_plexconn set_plexcursor
                  set_kodiconn set_kodicursor set_artconn set_artcursor
                  set_plexdb set_kodidb]
         end;
    intros Hok; first [discriminate Hok | reflexivity].
Qed.

(** X6: a session scope closes what it opened.  When [__enter__] returns,
    the body returns without rebinding the attributes of the session, and
    the nine calls of the exit return, the scope ends normally and its
    last nine calls are the commits, checkpoints and closes on the three
    connections that [__enter__] obtained from [utils.kodi_sql]. *)
Theorem session_scope_closes_what_it_opened
    (env : Env) (body : M unit) (s s2 : state) (p k a : conn) :
  is_ok (fst (__enter__ env s)) = true ->
  connected (self (entered env s)) p k a ->
  body (entered env s) = (Ok tt, s2) ->
  self s2 = self (entered env s) ->
  (forall i e, exit_calls p k a !! i = Some e ->
               raises env (trace s2 ++ take i (exit_calls p k a)) e = None) ->
  with_ItemBase env body s
  = (Ok tt, with_trace s2 (trace s2 ++ exit_calls p k a)) /\
  In (Call_kodi_sql "plex") (trace (entered env s)) /\
  In (Call_kodi_sql "video") (trace (entered env s)) /\
  In (Call_kodi_sql "texture") (trace (entered env s)).
Proof.
  intros Henter Hconn Hbody Hself Hquiet. split.
  - unfold with_ItemBase.
    rewrite (enter_returns env s Henter), Hbody.
    rewrite <- Hself in Hconn.
    rewrite (exit_unfold env None s2 p k a Hconn). unfold bind.
    by rewrite (call_seq_all_return env _ s2 Hquiet).
  - unfold entered. cbn [trace]. rewrite !in_app_iff. cbn [In].
    repeat split; tauto.
Qed.

Lemma session_scope_closes_what_it_opened_witness :
  is_ok (fst (__enter__ quiet_env blank_session)) = true /\
  connected (self (entered quiet_env blank_session)) (Conn 0) (Conn 2) (Conn 4) /\
  with_ItemBase quiet_env (apply_event quiet_env) blank_session
  = (Ok tt,
     with_trace (entered quiet_env blank_session)
       (trace (snd (apply_event quiet_env (entered quiet_env blank_session)))
        ++ exit_calls (Conn 0) (Conn 2) (Conn 4))).
Proof.
  split; [reflexivity|]. split; [repeat split|].
  refine (proj1 (session_scope_closes_what_it_opened quiet_env
                   (apply_event quiet_env) blank_session
                   (snd (apply_event quiet_env (entered quiet_env blank_session)))
                   (Conn 0) (Conn 2) (Conn 4) eq_refl _ eq_refl eq_refl _)).
  - repeat split.
  - intros i e _. reflexivity.
Defined.

(** X7: when opening the second connection fails, the first one stays open.
    [__enter__] has bound the identity-store connection and its cursor by
    then; the exception of [utils.kodi_sql] leaves the [with] statement at
    once: the body does not run, [__exit__] does not run, and no call is
    made on the connection already obtained besides taking its cursor. *)
Theorem enter_failure_leaves_connection_open
    (env : Env) (body : M unit) (s : state) (x : exn) :
  let c1 := kodi_sql_ret env (trace s) "plex" in
  let h1 := trace s ++ [Call_kodi_sql "plex"] in
  let h2 := h1 ++ [Call_conn c1 m_cursor] in
  raises env (trace s) (Call_kodi_sql "plex") = None ->
  raises env h1 (Call_conn c1 m_cursor) = None ->
  raises env h2 (Call_kodi_sql "video") = Some x ->
  with_ItemBase env body s =
  (Raise x,
   {| self := set_plexcursor (Some (cursor_ret env h1 c1))
                (set_plexconn (Some c1) (self s));
      trace := trace s ++ [Call_kodi_sql "plex"; Call_conn c1 m_cursor;
                           Call_kodi_sql "video"] |}).
Proof.
  intros c1 h1 h2 Hplex Hcur Hvideo. subst c1 h1 h2.
  unfold with_ItemBase. step_enter.
  rewrite Hplex. cbn [self trace plexconn set_plexconn].
  rewrite Hcur. cbn [self trace plexconn set_plexconn set_plexcursor].
  rewrite Hvideo. cbn [self trace]. rewrite <- !app_assoc. reflexivity.
Qed.

Lemma enter_failure_leaves_connection_open_witness :
  raises video_open_fails [Call_kodi_sql "plex"; Call_conn (Conn 0) m_cursor]
    (Call_kodi_sql "video") = Some OperationalError /\
  with_ItemBase video_open_fails (apply_event video_open_fails) blank_session =
  (Raise OperationalError,
   {| self := set_plexcursor (Some (Cursor 1))
                (set_plexconn (Some (Conn 0)) (self blank_session));
      trace := [Call_kodi_sql "plex"; Call_conn (Conn 0) m_cursor;
                Call_kodi_sql "video"] |}).
Proof.
  split; [reflexivity|].
  exact (enter_failure_leaves_connection_open video_open_fails
           (apply_event video_open_fails) blank_session OperationalError
           eq_refl eq_refl eq_refl).
Defined.

(** ** More on [update_playstate] *)

(** X8: [update_playstate] leaves the identity store alone.  For every
    argument, session and environment, the events it adds contain no call
    that resolves or reads the remote item, at most one writer call, no
    error log, and the attributes of the session are unchanged. *)
Theorem update_playstate_touches_writer_only
    (env : Env) (s : state)
    (mark_played view_count resume duration kodi_fileid lastViewedAt
       plex_type : pyval) :
  exists tr,
    trace (snd (update_playstate env mark_played view_count resume duration
                  kodi_fileid lastViewedAt plex_type s)) = trace s ++ tr /\
    count_calls is_identity_call tr = 0%nat /\
    count_calls is_log_error tr = 0%nat /\
    (writer_calls tr <= 1)%nat /\
    self (snd (update_playstate env mark_played view_count resume duration
                 kodi_fileid lastViewedAt plex_type s)) = self s.
Proof.
  step_playstate.
  destruct (py_truth mark_played); destruct view_count;
    cbn [py_iadd_one is_TypeError self trace fst snd];
    destruct (kodidb (self s)); cbn [self trace fst snd];
    split_on_raises;
    rewrite <- ?app_assoc;
    (eexists; split;
     [cbn [app]; first [reflexivity | symmetry; apply app_nil_r]|]);
    cbn; repeat split; lia.
Qed.

(** X10: on a session without a writer, [update_playstate] raises
    [AttributeError] before it converts the timestamp: no call is made, and
    the only event is the info log of the marking branch, when the item is
    marked as played. *)
Theorem update_playstate_unbound_writer
    (env : Env) (s : state)
    (mark_played view_count resume duration kodi_fileid lastViewedAt
       plex_type : pyval) :
  kodidb (self s) = None ->
  update_playstate env mark_played view_count resume duration kodi_fileid
    lastViewedAt plex_type s
  = (Raise (AttributeError "set_resume"),
     with_trace s
       (trace s ++ if py_truth mark_played then [info_watched] else [])).
Proof.
  intros Hk. step_playstate.
  destruct (py_truth mark_played); destruct view_count;
    cbn [py_iadd_one is_TypeError self trace fst snd];
    rewrite Hk; rewrite ?app_nil_r; destruct s; reflexivity.
Qed.

Lemma update_playstate_unbound_writer_witness :
  kodidb (self no_writer_session) = None /\
  update_playstate quiet_env (PyBool true) PyNone (PyInt 120000)
    (PyInt 5400000) (PyInt 9) (PyInt 1500000000) (PyStr "movie")
    no_writer_session
  = (Raise (AttributeError "set_resume"),
     with_trace no_writer_session [info_watched]).
Proof.
  split; [reflexivity|].
  exact (update_playstate_unbound_writer quiet_env no_writer_session
           (PyBool true) PyNone (PyInt 120000) (PyInt 5400000) (PyInt 9)
           (PyInt 1500000000) (PyStr "movie") eq_refl).
Defined.

(** ** More on [update_userdata] *)

(** X11: on a session without an identity store, [update_userdata] wraps
    the element in [API] and then raises [AttributeError]: the remote id is
    not read, nothing is looked up, logged or written. *)
Theorem update_userdata_unbound_store
    (env : Env) (s : state) (xml : Element) (plex_type : pyval) :
  plexdb (self s) = None ->
  raises env (trace s) (Call_API xml) = None ->
  update_userdata env xml plex_type s
  = (Raise (AttributeError "item_by_id"),
     with_trace s (trace s ++ [Call_API xml])).
Proof. intros Hp Hapi. step_userdata. rewrite_known. reflexivity. Qed.

Lemma update_userdata_unbound_store_witness :
  plexdb (self no_store_session) = None /\
  update_userdata synced_env a_video (PyStr "movie") no_store_session
  = (Raise (AttributeError "item_by_id"),
     with_trace no_store_session [Call_API a_video]).
Proof.
  split; [reflexivity|].
  exact (update_userdata_unbound_store synced_env no_store_session a_video
           (PyStr "movie") eq_refl eq_refl).
Defined.

(** X12: on a session with an identity store and no writer, an item that
    is found has its user data fetched, and then [update_userdata] raises
    [AttributeError]: nothing is written. *)
Theorem update_userdata_unbound_writer
    (env : Env) (s : state) (p : PlexDB.t) (xml : Element)
    (plex_type : pyval) :
  let h1 := trace s ++ [Call_API xml] in
  let h2 := h1 ++ [Call_plex_id xml] in
  let lookup := Call_item_by_id p (plex_id_ret env h1 xml) plex_type in
  let h3 := h2 ++ [lookup] in
  plexdb (self s) = Some p ->
  kodidb (self s) = None ->
  raises env (trace s) (Call_API xml) = None ->
  raises env h1 (Call_plex_id xml) = None ->
  raises env h2 lookup = None ->
  truth_dict (item_by_id_ret env h2 p (plex_id_ret env h1 xml) plex_type)
  = true ->
  raises env h3 (Call_userdata xml) = None ->
  update_userdata env xml plex_type s
  = (Raise (AttributeError "set_resume"),
     with_trace s
       (trace s ++ [Call_API xml; Call_plex_id xml; lookup;
                    Call_userdata xml])).
Proof.
  intros h1 h2 lookup h3 Hp Hk Hapi Hid Hlookup Hfound Hud.
  subst h1 h2 lookup h3. step_userdata. rewrite_known.
  rewrite <- !app_assoc. reflexivity.
Qed.

Lemma update_userdata_unbound_writer_witness :
  plexdb (self no_writer_session) = Some a_plexdb /\
  kodidb (self no_writer_session) = None /\
  update_userdata synced_env a_video (PyStr "movie") no_writer_session
  = (Raise (AttributeError "set_resume"),
     with_trace no_writer_session
       [Call_API a_video; Call_plex_id a_video;
        Call_item_by_id a_plexdb (PyStr "123") (PyStr "movie");
        Call_userdata a_video]).
Proof.
  split; [reflexivity|]. split; [reflexivity|].
  exact (update_userdata_unbound_writer synced_env no_writer_session a_plexdb
           a_video (PyStr "movie") eq_refl eq_refl eq_refl eq_refl eq_refl
           eq_refl eq_refl).
Defined.

(** X13: a missing field stops [update_userdata] before it writes.  The
    arguments of [set_resume] are read in the order [kodi_fileid] (of the
    record found), [Resume], [Runtime], [PlayCount], [LastPlayedDate] (of
    the user data); when one is missing, the method raises [KeyError] for
    the first missing key and has made no writer call. *)
Theorem update_userdata_missing_field_before_write
    (env : Env) (s : state) (p : PlexDB.t) (k : KodiVideoDB.t)
    (xml : Element) (plex_type : pyval) (d : gmap string pyval)
    (key : string) :
  let h1 := trace s ++ [Call_API xml] in
  let h2 := h1 ++ [Call_plex_id xml] in
  let lookup := Call_item_by_id p (plex_id_ret env h1 xml) plex_type in
  let h3 := h2 ++ [lookup] in
  let u := userdata_ret env h3 xml in
  let r := update_userdata env xml plex_type s in
  plexdb (self s) = Some p ->
  kodidb (self s) = Some k ->
  raises env (trace s) (Call_API xml) = None ->
  raises env h1 (Call_plex_id xml) = None ->
  raises env h2 lookup = None ->
  item_by_id_ret env h2 p (plex_id_ret env h1 xml) plex_type = Some d ->
  truth_dict (Some d) = true ->
  raises env h3 (Call_userdata xml) = None ->
  first_missing [(d, "kodi_fileid"); (u, "Resume"); (u, "Runtime");
                 (u, "PlayCount"); (u, "LastPlayedDate")] = Some key ->
  r = (Raise (KeyError key),
       with_trace s (trace s ++ [Call_API xml; Call_plex_id xml; lookup;
                                 Call_userdata xml])) /\
  writer_calls (added s r) = 0%nat.
Proof.
  intros h1 h2 lookup h3 u r Hp Hk Hapi Hid Hlookup Hd Htrue Hud Hmiss.
  subst h1 h2 lookup h3 u r. cbn [first_missing] in Hmiss.
  destruct (d !! "kodi_fileid") as [v1|] eqn:E1;
    [destruct (userdata_ret env _ xml !! "Resume") as [v2|] eqn:E2;
     [destruct (userdata_ret env _ xml !! "Runtime") as [v3|] eqn:E3;
      [destruct (userdata_ret env _ xml !! "PlayCount") as [v4|] eqn:E4;
       [destruct (userdata_ret env _ xml !! "LastPlayedDate") as [v5|] eqn:E5;
        [discriminate Hmiss|]|]|]|]|];
    injection Hmiss as <-;
    unfold added; step_userdata; rewrite_known; rewrite <- !app_assoc;
    (split; [reflexivity|]);
    cbn [snd trace]; rewrite drop_app_length; reflexivity.
Qed.

Lemma update_userdata_missing_field_before_write_witness :
  record_without_fileid !! "kodi_fileid" = None /\
  truth_dict (Some record_without_fileid) = true /\
  update_userdata (test_env (fun _ => None) (Some record_without_fileid)
                     a_userdata) a_video (PyStr "movie") open_session
  = (Raise (KeyError "kodi_fileid"),
     with_trace open_session
       [Call_API a_video; Call_plex_id a_video;
        Call_item_by_id a_plexdb (PyStr "123") (PyStr "movie");
        Call_userdata a_video]).
Proof.
  split; [reflexivity|]. split; [reflexivity|].
  exact (proj1 (update_userdata_missing_field_before_write
                  (test_env (fun _ => None) (Some record_without_fileid)
                     a_userdata)
                  open_session a_plexdb a_kodidb a_video (PyStr "movie")
                  record_without_fileid "kodi_fileid"
                  eq_refl eq_refl eq_refl eq_refl eq_refl eq_refl eq_refl
                  eq_refl eq_refl)).
Defined.

(** X14: a field missing for the rating is found out after the playstate
    was written.  When the five arguments of [set_resume] are there and
    [set_resume] returns, and [kodi_id] or [kodi_type] (of the record) or
    [UserRating] (of the user data) is missing, the method raises
    [KeyError] for the first missing one of them: [set_resume] has been
    called, [update_userrating] has not. *)
Theorem update_userdata_missing_field_after_write
    (env : Env) (s : state) (p : PlexDB.t) (k : KodiVideoDB.t)
    (xml : Element) (plex_type : pyval) (d : gmap string pyval)
    (fileid resume runtime playcount lastplayed : pyval) (key : string) :
  let h1 := trace s ++ [Call_API xml] in
  let h2 := h1 ++ [Call_plex_id xml] in
  let lookup := Call_item_by_id p (plex_id_ret env h1 xml) plex_type in
  let h3 := h2 ++ [lookup] in
  let h4 := h3 ++ [Call_userdata xml] in
  let u := userdata_ret env h3 xml in
  let write1 := Call_set_resume k fileid resume runtime playcount lastplayed
                  plex_type in
  let r := update_userdata env xml plex_type s in
  plexdb (self s) = Some p ->
  kodidb (self s) = Some k ->
  raises env (trace s) (Call_API xml) = None ->
  raises env h1 (Call_plex_id xml) = None ->
  raises env h2 lookup = None ->
  item_by_id_ret env h2 p (plex_id_ret env h1 xml) plex_type = Some d ->
  raises env h3 (Call_userdata xml) = None ->
  d !! "kodi_fileid" = Some fileid ->
  u !! "Resume" = Some resume ->
  u !! "Runtime" = Some runtime ->
  u !! "PlayCount" = Some playcount ->
  u !! "LastPlayedDate" = Some lastplayed ->
  raises env h4 write1 = None ->
  first_missing [(d, "kodi_id"); (d, "kodi_type"); (u, "UserRating")]
  = Some key ->
  r = (Raise (KeyError key),
       with_trace s (trace s ++ [Call_API xml; Call_plex_id xml; lookup;
                                 Call_userdata xml; write1])) /\
  writer_calls (added s r) = 1%nat.
Proof.
  intros h1 h2 lookup h3 h4 u write1 r
    Hp Hk Hapi Hid Hlookup Hd Hud Hf Hres Hrun Hpc Hlp Hw Hmiss.
  subst h1 h2 lookup h3 h4 u write1 r. cbn [first_missing] in Hmiss.
  pose proof (truth_dict_lookup d _ _ Hf) as Htrue.
  destruct (d !! "kodi_id") as [v1|] eqn:E1;
    [destruct (d !! "kodi_type") as [v2|] eqn:E2;
     [destruct (userdata_ret env _ xml !! "UserRating") as [v3|] eqn:E3;
      [discriminate Hmiss|]|]|];
    injection Hmiss as <-;
    unfold added; step_userdata; rewrite_known; rewrite <- !app_assoc;
    (split; [reflexivity|]);
    cbn [snd trace]; rewrite drop_app_length; reflexivity.
Qed.

Lemma update_userdata_missing_field_after_write_witness :
  record_without_kodi_id !! "kodi_id" = None /\
  update_userdata (test_env (fun _ => None) (Some record_without_kodi_id)
                     a_userdata) a_video (PyStr "movie") open_session
  = (Raise (KeyError "kodi_id"),
     with_trace open_session
       [Call_API a_video; Call_plex_id a_video;
        Call_item_by_id a_plexdb (PyStr "123") (PyStr "movie");
        Call_userdata a_video;
        Call_set_resume a_kodidb (PyInt 55) (PyInt 300) (PyInt 7200)
          (PyInt 2) (PyStr "2017-07-14 02:40:00") (PyStr "movie")]).
Proof.
  split; [reflexivity|].
  exact (proj1 (update_userdata_missing_field_after_write
                  (test_env (fun _ => None) (Some record_without_kodi_id)
                     a_userdata)
                  open_session a_plexdb a_kodidb a_video (PyStr "movie")
                  record_without_kodi_id (PyInt 55) (PyInt 300) (PyInt 7200)
                  (PyInt 2) (PyStr "2017-07-14 02:40:00") "kodi_id"
                  eq_refl eq_refl eq_refl eq_refl eq_refl eq_refl eq_refl
                  eq_refl eq_refl eq_refl eq_refl eq_refl eq_refl eq_refl)).
Defined.

(** X15: [update_userdata] either skips or writes.  In any session and
    whatever the collaborators do, it logs at most one error; when it logs
    the error it has made no writer call and it returns; when it has made
    a writer call it has logged no error; and it rebinds no attribute of
    the session. *)
Theorem update_userdata_skips_or_writes
    (env : Env) (s : state) (xml : Element) (plex_type : pyval) :
  exists tr,
    trace (snd (update_userdata env xml plex_type s)) = trace s ++ tr /\
    (count_calls is_log_error tr <= 1)%nat /\
    (count_calls is_log_error tr = 1%nat ->
     writer_calls tr = 0%nat /\
     fst (update_userdata env xml plex_type s) = Ok tt) /\
    (0 < writer_calls tr -> count_calls is_log_error tr = 0)%nat /\
    self (snd (update_userdata env xml plex_type s)) = self s.
Proof.
  step_userdata.
  repeat (cbn [self trace fst snd negb];
          match goal with
          | |- context [raises env ?h ?e] => destruct (raises env h e)
          | |- context [plexdb (self s)] => destruct (plexdb (self s))
          | |- context [kodidb (self s)] => destruct (kodidb (self s))
          | |- context [truth_dict ?d] => destruct (truth_dict d)
          | |- context [match item_by_id_ret env ?h ?p ?i ?t with _ => _ end] =>
            destruct (item_by_id_ret env h p i t)
          | |- context [@lookup string pyval _ _ ?key ?m] =>
            destruct (@lookup string pyval _ _ key m)
          end);
    cbn [self trace fst snd negb];
    rewrite <- ?app_assoc;
    (eexists; split; [cbn [app]; reflexivity|]);
    cbn; repeat split; intros; first [lia | discriminate | reflexivity].
Qed.

Lemma update_userdata_skips_or_writes_witness :
  exists tr,
    trace (snd (update_userdata quiet_env a_video (PyStr "movie") open_session))
    = trace open_session ++ tr /\
    count_calls is_log_error tr = 1%nat /\
    writer_calls tr = 0%nat.
Proof.
  destruct (update_userdata_skips_or_writes quiet_env open_session a_video
              (PyStr "movie")) as (tr & Htr & Hone & Hlog & _).
  exists tr. split; [exact Htr|].
  assert (Hcount : count_calls is_log_error tr = 1%nat).
  { cbn in Htr. subst tr. reflexivity. }
  split; [exact Hcount|]. exact (proj1 (Hlog Hcount)).
Defined.

(** ** Artwork: [set_fanart] *)

(** X16: inside a session, [set_fanart] hands the artwork, the item id and
    the item type, unchanged, to [modify_artwork] of the writer that
    [__enter__] built (with the texture database, on the new video and
    texture cursors), in one call whose outcome is the outcome of the
    method.  On a session without a writer it raises [AttributeError] and
    makes no call. *)
Theorem set_fanart_goes_to_session_writer
    (env : Env) (s : state) (artworks : gmap string string)
    (kodi_id kodi_type : pyval) :
  (is_ok (fst (__enter__ env s)) = true ->
   exists k,
     kodidb (self (entered env s)) = Some k /\
     In (Call_KodiVideoDB true (kodicursor (self (entered env s)))
           (artcursor (self (entered env s))))
        (trace (entered env s)) /\
     (let* _ := __enter__ env in set_fanart env artworks kodi_id kodi_type) s
     = (match raises env (trace (entered env s))
                (Call_modify_artwork k artworks kodi_id kodi_type) with
        | Some x => Raise x
        | None => Ok tt
        end,
        with_trace (entered env s)
          (trace (entered env s)
           ++ [Call_modify_artwork k artworks kodi_id kodi_type]))) /\
  (kodidb (self s) = None ->
   set_fanart env artworks kodi_id kodi_type s
   = (Raise (AttributeError "modify_artwork"), s)).
Proof.
  split.
  - intros Henter. eexists. split; [reflexivity|]. split.
    + unfold entered. cbn [trace self kodicursor artcursor].
      apply in_app_iff. right. left. reflexivity.
    + unfold bind at 1. rewrite (enter_returns env s Henter).
      unfold set_fanart, bind, receiver, extcall, with_trace.
      cbn [self trace kodidb entered].
      destruct (raises env _ _); reflexivity.
  - intros Hk. unfold set_fanart, bind, receiver. by rewrite Hk.
Qed.

Lemma set_fanart_goes_to_session_writer_witness :
  is_ok (fst (__enter__ quiet_env externally_bound)) = true /\
  kodidb (self no_writer_session) = None /\
  (let* _ := __enter__ quiet_env in
   set_fanart quiet_env a_fanart (PyInt 77) (PyStr "movie")) externally_bound
  = (Ok tt,
     with_trace (entered quiet_env externally_bound)
       (trace (entered quiet_env externally_bound)
        ++ [Call_modify_artwork
              (KodiVideoDB.mk 7 (Some (Cursor 3)) None (Some (Cursor 5)))
              a_fanart (PyInt 77) (PyStr "movie")])) /\
  set_fanart quiet_env a_fanart (PyInt 77) (PyStr "movie") no_writer_session
  = (Raise (AttributeError "modify_artwork"), no_writer_session).
Proof.
  split; [reflexivity|]. split; [reflexivity|].
  destruct (set_fanart_goes_to_session_writer quiet_env externally_bound
              a_fanart (PyInt 77) (PyStr "movie")) as [Hin _].
  destruct (Hin eq_refl) as (k & Hk & _ & Hrun).
  injection Hk as <-.
  split; [exact Hrun|].
  exact (proj2 (set_fanart_goes_to_session_writer quiet_env no_writer_session
                  a_fanart (PyInt 77) (PyStr "movie")) eq_refl).
Defined.
